(** * Request pipeline of the video summarising backend (backend/app.py)

    A shallow embedding of the URL resolver, the transcript fetcher, the
    prompt builder and the parsers of the language-model output, together
    with the HTTP handlers, and the properties proved about them.

    Conventions of the embedding:
    - a Python [str] is a [string]; one [ascii] stands for one character
      (the code points below 256);
    - a Python [int] is a [Z] ([find] answers [-1] when nothing is found);
    - a raised exception is a value [Raise e] of the type [result]; its
      class stands for the class named and its subclasses;
    - the two regular expressions are terms of a small pattern language
      with a backtracking matcher (leftmost match, greedy repetition);
    - the transcript provider, the chat-completion provider, the JSON
      decoder of the standard library and the process environment are
      parameters of the section [Backend];
    - the chat-completion requests that leave the process are appended to
      a log that is threaded through the functions that call the provider;
      the line a handler prints when it fails is not modelled. *)

From Stdlib Require Import ZArith List Lia Bool.
From Stdlib Require Import Strings.String Strings.Ascii.
From Stdlib Require Import QArith_base.
Import ListNotations.

Local Open Scope string_scope.
Local Open Scope Z_scope.

(* ================================================================= *)
(** ** Python string operations used by the source *)

Module PyStr.

(** Characters removed by [str.strip()] with no argument: the white space
    of the code points below 256. *)
Definition isspace (a : ascii) : bool :=
  let n := Z.of_N (N_of_ascii a) in
  ((9 <=? n) && (n <=? 13)) || ((28 <=? n) && (n <=? 32))
  || (n =? 133) || (n =? 160).

Fixpoint lstrip (s : string) : string :=
  match s with
  | EmptyString => EmptyString
  | String a s' => if isspace a then lstrip s' else s
  end.

Fixpoint rstrip (s : string) : string :=
  match s with
  | EmptyString => EmptyString
  | String a s' =>
      match rstrip s' with
      | EmptyString => if isspace a then EmptyString else String a EmptyString
      | r => String a r
      end
  end.

(** [s.strip()] *)
Definition strip (s : string) : string := rstrip (lstrip s).

(** [s.find(c)] for a one-character needle: lowest index, or [-1]. *)
Fixpoint find (c : ascii) (s : string) : Z :=
  match s with
  | EmptyString => -1
  | String a s' =>
      if Ascii.eqb a c then 0
      else let i := find c s' in if i =? -1 then -1 else i + 1
  end.

(** [s.rfind(c)] for a one-character needle: highest index, or [-1]. *)
Fixpoint rfind (c : ascii) (s : string) : Z :=
  match s with
  | EmptyString => -1
  | String a s' =>
      let i := rfind c s' in
      if i =? -1 then (if Ascii.eqb a c then 0 else -1) else i + 1
  end.

(** A slice bound is brought into [0 .. len]: a negative bound counts
    from the end. *)
Definition clamp (len i : Z) : Z :=
  if i <? 0 then Z.max 0 (len + i) else Z.min i len.

(** [s[lo:hi]] *)
Definition slice (s : string) (lo hi : Z) : string :=
  let len := Z.of_nat (String.length s) in
  let l := clamp len lo in
  let h := clamp len hi in
  substring (Z.to_nat l) (Z.to_nat (h - l)) s.

(** [sep.join(parts)] *)
Fixpoint join (sep : string) (parts : list string) : string :=
  match parts with
  | [] => EmptyString
  | [x] => x
  | x :: rest => x ++ sep ++ join sep rest
  end.

(** [s.split(c)] for a one-character separator. *)
Fixpoint split (c : ascii) (s : string) : list string :=
  match s with
  | EmptyString => [EmptyString]
  | String a s' =>
      if Ascii.eqb a c then EmptyString :: split c s'
      else match split c s' with
           | [] => [String a EmptyString]
           | w :: ws => String a w :: ws
           end
  end.

(** [c in s] for a one-character [c]. *)
Fixpoint contains (c : ascii) (s : string) : bool :=
  match s with
  | EmptyString => false
  | String a s' => Ascii.eqb a c || contains c s'
  end.

(** Every character of [s] satisfies [p]. *)
Fixpoint all_chars (p : ascii -> bool) (s : string) : bool :=
  match s with
  | EmptyString => true
  | String a s' => p a && all_chars p s'
  end.

(** [s.startswith(p)] *)
Fixpoint startswith (p s : string) : bool :=
  match p, s with
  | EmptyString, _ => true
  | String a p', String b s' => Ascii.eqb a b && startswith p' s'
  | String _ _, EmptyString => false
  end.

(** [p in s] for a needle of any length. *)
Fixpoint occurs (p s : string) : bool :=
  startswith p s ||
  match s with
  | EmptyString => false
  | String _ s' => occurs p s'
  end.

(** Truth value of a string: [not s] holds of the empty string only. *)
Definition truthy (s : string) : bool :=
  match s with EmptyString => false | _ => true end.

End PyStr.

(* ================================================================= *)
(** ** Exceptions and results *)

(** The exception classes the source tells apart, and the ones it
    raises itself. [Exception_] is the class [Exception] proper;
    [OtherError name] is any further subclass of [Exception]. *)
Inductive exn_class : Type :=
| TranscriptsDisabled
| NoTranscriptFound
| VideoUnavailable
| JSONDecodeError
| IndexError
| AttributeError
| Exception_
| OtherError (name : string).

(** An exception value; [str(e)] is its message. *)
Record exn : Type := mkExn { cls : exn_class; str : string }.

Definition Exception (msg : string) : exn := mkExn Exception_ msg.

Inductive result (A : Type) : Type :=
| Raise (e : exn)
| Return (a : A).
Arguments Raise {A} e.
Arguments Return {A} a.

Definition bind {A B : Type} (r : result A) (k : A -> result B) : result B :=
  match r with
  | Raise e => Raise e
  | Return a => k a
  end.

(** [try: body  except (classes) as e: handler e] *)
Definition try_except {A : Type} (body : result A) (catches : exn_class -> bool)
    (handler : exn -> result A) : result A :=
  match body with
  | Raise e => if catches (cls e) then handler e else Raise e
  | Return a => Return a
  end.

Definition any_exception (_ : exn_class) : bool := true.

Declare Scope result_scope.
Delimit Scope result_scope with result.
Notation "x <- c ;; k" := (bind c (fun x => k))
  (at level 61, c at next level, right associativity) : result_scope.

(* ================================================================= *)
(** ** URL resolver: [extract_video_id] *)

Module Re.

(** The character class [[^&\n?#]] of both patterns. *)
Definition id_char (a : ascii) : bool :=
  negb (Ascii.eqb a "&" || Ascii.eqb a "010" || Ascii.eqb a "?"
        || Ascii.eqb a "#")%char.

(** [.] without DOTALL: any character but the line feed. *)
Definition dot (a : ascii) : bool := negb (Ascii.eqb a "010"%char).

(** The fragment of the pattern language the source uses: literal
    text, alternation, sequence, the greedy star and plus of a set of
    characters, and the capturing group (there is one, group 1). *)
Inductive regex : Type :=
| Lit (text : string)
| Alt (r1 r2 : regex)
| Seq (r1 r2 : regex)
| Star (set : ascii -> bool)
| Plus (set : ascii -> bool)
| Group (r : regex).

(** A literal at the head of [s]: the rest of [s] behind it. *)
Fixpoint literal (p s : string) : option string :=
  match p with
  | EmptyString => Some s
  | String a p' =>
      match s with
      | EmptyString => None
      | String b s' => if Ascii.eqb a b then literal p' s' else None
      end
  end.

(** The greedy star of a set: the longest run first, then one
    character less, as long as the continuation [k] fails. *)
Fixpoint star {A : Type} (set : ascii -> bool) (s : string)
    (k : string -> option A) : option A :=
  match s with
  | EmptyString => k EmptyString
  | String a s' =>
      if set a then
        match star set s' k with
        | Some x => Some x
        | None => k s
        end
      else k s
  end.

(** The text consumed between the input [s] and its suffix [s']. *)
Definition consumed (s s' : string) : string :=
  substring 0 (String.length s - String.length s') s.

(** The backtracking matcher, anchored at the head of [s]. [g] is
    group 1 so far; the continuation [k] takes the rest of the input
    and the group, and its failure makes the matcher try its next
    choice. *)
Fixpoint run {A : Type} (r : regex) (s : string) (g : option string)
    (k : string -> option string -> option A) : option A :=
  match r with
  | Lit text =>
      match literal text s with
      | Some s' => k s' g
      | None => None
      end
  | Alt r1 r2 =>
      match run r1 s g k with
      | Some x => Some x
      | None => run r2 s g k
      end
  | Seq r1 r2 => run r1 s g (fun s' g' => run r2 s' g' k)
  | Star set => star set s (fun s' => k s' g)
  | Plus set =>
      match s with
      | EmptyString => None
      | String a s' => if set a then star set s' (fun s'' => k s'' g) else None
      end
  | Group r' => run r' s g (fun s' _ => k s' (Some (consumed s s')))
  end.

(** A match anchored at the head of [s]: its group 1. *)
Definition match_at (r : regex) (s : string) : option (option string) :=
  run r s None (fun _ g => Some g).

(** [re.search(r, s)]: the pattern is tried at every position from left
    to right (the end of the string included). The answer is the first
    match, given by its group 1. *)
Fixpoint search (r : regex) (s : string) : option (option string) :=
  match match_at r s with
  | Some m => Some m
  | None =>
      match s with
      | EmptyString => None
      | String _ s' => search r s'
      end
  end.

(** [(?:youtube\.com\/watch\?v=|youtu\.be\/|youtube\.com\/embed\/)([^&\n?#]+)] *)
Definition pattern1 : regex :=
  Seq (Alt (Lit "youtube.com/watch?v=")
         (Alt (Lit "youtu.be/") (Lit "youtube.com/embed/")))
      (Group (Plus id_char)).

(** [youtube\.com\/watch\?.*v=([^&\n?#]+)] *)
Definition pattern2 : regex :=
  Seq (Lit "youtube.com/watch?")
      (Seq (Star dot) (Seq (Lit "v=") (Group (Plus id_char)))).

(** *** The two patterns in closed form

    The functions below say directly what the matcher does on the two
    patterns; they are proved equal to it ([match_at_pattern1],
    [match_at_pattern2]) and carry the proofs about the resolver. *)

(** The longest run of class characters at the head of [s]: what the
    greedy [[^&\n?#]+] that ends a pattern consumes. *)
Fixpoint take_id (s : string) : string :=
  match s with
  | EmptyString => EmptyString
  | String a s' => if id_char a then String a (take_id s') else EmptyString
  end.

(** The capturing group [([^&\n?#]+)] at the head of [s]: at least one
    character is needed. *)
Definition group1 (s : string) : option string :=
  match take_id s with
  | EmptyString => None
  | g => Some g
  end.

(** The alternatives of the non-capturing group of the first pattern,
    in the order they are written. *)
Definition prefixes1 : list string :=
  [ "youtube.com/watch?v="; "youtu.be/"; "youtube.com/embed/" ].

(** An alternation of literals followed by the group, anchored at the
    head of [s]: the alternatives are tried from left to right. *)
Fixpoint alternatives (ps : list string) (s : string) : option string :=
  match ps with
  | [] => None
  | p :: ps' =>
      match literal p s with
      | Some rest =>
          match group1 rest with
          | Some g => Some g
          | None => alternatives ps' s
          end
      | None => alternatives ps' s
      end
  end.

(** First pattern anchored at the head of [s]. *)
Definition match1 (s : string) : option string := alternatives prefixes1 s.

(** [.*v=([^&\n?#]+)] anchored at the head of [s]: among the positions
    the star can reach (no line feed is crossed) the last one where
    [v=] and the group match is taken. *)
Fixpoint star_v (s : string) : option string :=
  let here :=
    match literal "v=" s with
    | Some rest => group1 rest
    | None => None
    end in
  match s with
  | EmptyString => here
  | String a s' =>
      if dot a then
        match star_v s' with
        | Some g => Some g
        | None => here
        end
      else here
  end.

(** Second pattern anchored at the head of [s]. *)
Definition match2 (s : string) : option string :=
  match literal "youtube.com/watch?" s with
  | Some rest => star_v rest
  | None => None
  end.

(** An anchored matcher tried at every position from left to right. *)
Fixpoint scan (m : string -> option string) (s : string) : option string :=
  match m s with
  | Some g => Some g
  | None =>
      match s with
      | EmptyString => None
      | String _ s' => scan m s'
      end
  end.

End Re.

(** The list [patterns] of the source. *)
Definition patterns : list Re.regex := [ Re.pattern1; Re.pattern2 ].

(** The [for pattern in patterns] loop: the first pattern that matches
    decides, and the answer is [match.group(1)]. *)
Fixpoint first_match (ps : list Re.regex) (url : string) : option string :=
  match ps with
  | [] => None
  | p :: ps' =>
      match Re.search p url with
      | Some m => m
      | None => first_match ps' url
      end
  end.

Definition extract_video_id (url : string) : option string :=
  first_match patterns url.

(* ================================================================= *)
(** ** JSON values *)

(** A decoded JSON document, as the Python objects [json.loads] builds:
    a [dict] is an association list in insertion order with distinct
    keys, a [float] keeps the text it was read from. *)
#[warnings="-register-all"]
Inductive json : Type :=
| JNull
| JBool (b : bool)
| JInt (n : Z)
| JFloat (lexeme : string)
| JString (s : string)
| JArray (items : list json)
| JObject (fields : list (string * json)).

Fixpoint assoc {V : Type} (k : string) (kvs : list (string * V)) : option V :=
  match kvs with
  | [] => None
  | (k', v) :: rest => if String.eqb k' k then Some v else assoc k rest
  end.

(** [d.get(key, default)] on a [dict] of strings. *)
Definition get_default {V : Type} (d : list (string * V)) (key : string)
    (default : V) : V :=
  match assoc key d with
  | Some v => v
  | None => default
  end.

Definition type_name (v : json) : string :=
  match v with
  | JNull => "NoneType"
  | JBool _ => "bool"
  | JInt _ => "int"
  | JFloat _ => "float"
  | JString _ => "str"
  | JArray _ => "list"
  | JObject _ => "dict"
  end.

Definition squote : string := String (ascii_of_nat 39) EmptyString.
Definition dquote : string := String (ascii_of_nat 34) EmptyString.
Definition nl : string := String (ascii_of_nat 10) EmptyString.

(** [data.get(key, default)] on a decoded value: only a [dict] has the
    method. *)
Definition json_get (data : json) (key : string) (default : json)
  : result json :=
  match data with
  | JObject d => Return (get_default d key default)
  | _ => Raise (mkExn AttributeError
                  (squote ++ type_name data ++ squote
                   ++ " object has no attribute " ++ squote ++ "get" ++ squote))
  end.

(* ================================================================= *)
(** ** The external collaborators *)

(** One caption fragment: the text and its timing. *)
Record Fragment : Type := mkFragment
  { text : string; start : Q; duration : Q }.

(** A transcript track: [fetch] is the outcome of [transcript.fetch()]. *)
Record Transcript : Type := mkTranscript
  { fetch : result (list Fragment) }.

(** What [list_transcripts] answers: [find_transcript] by language
    codes, and the tracks in the order iteration yields them. *)
Record TranscriptList : Type := mkTranscriptList
  { find_transcript : list string -> result Transcript;
    tracks : list Transcript }.

(** One chat-completion request. The temperature [0.7] is kept as the
    decimal it is written as. *)
Record chat_request : Type := mkChat
  { model : string;
    messages : list (string * string);   (* role, content *)
    max_tokens : Z;
    temperature : Q }.

(** The requests sent to the chat-completion provider so far. *)
Definition llm_log : Type := list chat_request.

(** [xs[0]] *)
Definition first_item {A : Type} (xs : list A) : result A :=
  match xs with
  | [] => Raise (mkExn IndexError "list index out of range")
  | x :: _ => Return x
  end.

Definition is_json_decode_error (c : exn_class) : bool :=
  match c with JSONDecodeError => true | _ => false end.

Definition is_transcript_unavailable (c : exn_class) : bool :=
  match c with
  | TranscriptsDisabled | NoTranscriptFound | VideoUnavailable => true
  | _ => false
  end.

(** The [length_instructions] dictionary. *)
Definition length_instructions : list (string * string) :=
  [ ("short", "in 2-3 sentences");
    ("medium", "in 1-2 paragraphs");
    ("long", "in 3-4 paragraphs with detailed analysis") ].

Definition indent8 : string := "        ".

(** The prompt of the summary with its two holes filled: the length
    instruction and the transcript text. The remark after the second
    hole is text of the f-string, so it is sent along. *)
Definition summary_template (instruction embedded : string) : string :=
  nl ++ indent8 ++ "Summarize the following YouTube video transcript "
     ++ instruction ++ "." ++ nl
  ++ indent8 ++ nl
  ++ indent8 ++ "Transcript:" ++ nl
  ++ indent8 ++ embedded
     ++ "  # Limit to first 4000 characters to avoid token limits" ++ nl
  ++ indent8 ++ nl
  ++ indent8 ++ "Please provide a comprehensive summary that captures the main points, key insights, and important details." ++ nl
  ++ indent8.

Definition summary_prompt (transcript length : string) : string :=
  summary_template
    (get_default length_instructions length "in 1-2 paragraphs")
    (PyStr.slice transcript 0 4000).

Definition quiz_prompt (summary : string) : string :=
  nl ++ indent8 ++ "Based on the following summary, generate 5 multiple choice questions." ++ nl
  ++ indent8 ++ nl
  ++ indent8 ++ "Summary:" ++ nl
  ++ indent8 ++ summary ++ nl
  ++ indent8 ++ nl
  ++ indent8 ++ "Return the questions in this exact JSON format:" ++ nl
  ++ indent8 ++ "{" ++ nl
  ++ indent8 ++ "    " ++ dquote ++ "questions" ++ dquote ++ ": [" ++ nl
  ++ indent8 ++ "        {" ++ nl
  ++ indent8 ++ "            " ++ dquote ++ "question" ++ dquote ++ ": "
     ++ dquote ++ "Question text here?" ++ dquote ++ "," ++ nl
  ++ indent8 ++ "            " ++ dquote ++ "options" ++ dquote ++ ": ["
     ++ dquote ++ "Option A" ++ dquote ++ ", "
     ++ dquote ++ "Option B" ++ dquote ++ ", "
     ++ dquote ++ "Option C" ++ dquote ++ ", "
     ++ dquote ++ "Option D" ++ dquote ++ "]," ++ nl
  ++ indent8 ++ "            " ++ dquote ++ "answer" ++ dquote ++ ": "
     ++ dquote ++ "Correct option text" ++ dquote ++ nl
  ++ indent8 ++ "        }" ++ nl
  ++ indent8 ++ "    ]" ++ nl
  ++ indent8 ++ "}" ++ nl
  ++ indent8 ++ nl
  ++ indent8 ++ "Make sure the questions test understanding of key concepts from the summary." ++ nl
  ++ indent8.

Definition pairs_prompt (summary : string) : string :=
  nl ++ indent8 ++ "Based on the following summary, generate 5 term-definition pairs for a matching game." ++ nl
  ++ indent8 ++ nl
  ++ indent8 ++ "Summary:" ++ nl
  ++ indent8 ++ summary ++ nl
  ++ indent8 ++ nl
  ++ indent8 ++ "Return the pairs in this exact JSON format:" ++ nl
  ++ indent8 ++ "{" ++ nl
  ++ indent8 ++ "    " ++ dquote ++ "pairs" ++ dquote ++ ": [" ++ nl
  ++ indent8 ++ "        {" ++ nl
  ++ indent8 ++ "            " ++ dquote ++ "term" ++ dquote ++ ": "
     ++ dquote ++ "Term here" ++ dquote ++ "," ++ nl
  ++ indent8 ++ "            " ++ dquote ++ "definition" ++ dquote ++ ": "
     ++ dquote ++ "Definition here" ++ dquote ++ nl
  ++ indent8 ++ "        }" ++ nl
  ++ indent8 ++ "    ]" ++ nl
  ++ indent8 ++ "}" ++ nl
  ++ indent8 ++ nl
  ++ indent8 ++ "Choose important terms and concepts from the summary that would be good for learning." ++ nl
  ++ indent8.

(** The fallback of the quiz parser. *)
Definition fallback_questions : json :=
  JArray
    [ JObject
        [ ("question", JString "What is the main topic discussed in the video?");
          ("options", JArray [ JString "Topic A"; JString "Topic B";
                               JString "Topic C"; JString "Topic D" ]);
          ("answer", JString "Topic A") ] ].

(** The fallback of the pairs parser. *)
Definition fallback_pairs : json :=
  JArray
    [ JObject
        [ ("term", JString "Key Concept");
          ("definition", JString "An important idea from the video") ] ].

(* ================================================================= *)
(** ** The functions of the backend *)

Section Backend.

(** [YouTubeTranscriptApi.list_transcripts(video_id)] *)
Variable list_transcripts : string -> result TranscriptList.

(** [openai.ChatCompletion.create(...)] followed by
    [response.choices[0].message.content]: the content ([None] when the
    provider sent none) or the exception either step raised. *)
Variable chat_completion : chat_request -> result (option string).

(** [json.loads] *)
Variable json_loads : string -> result json.

(** [os.getenv('OPENAI_MODEL')] *)
Variable OPENAI_MODEL : option string.

Local Open Scope result_scope.

Definition getenv_model (default : string) : string :=
  match OPENAI_MODEL with
  | Some m => m
  | None => default
  end.

(** The inner [try]/[except:] of [get_youtube_transcript]: the English
    track, and on any exception the first track listed. *)
Definition choose_track (transcript_list : TranscriptList)
  : result Transcript :=
  match find_transcript transcript_list ["en"] with
  | Return t => Return t
  | Raise _ => first_item (tracks transcript_list)
  end.

Definition get_youtube_transcript (video_id : string) : result string :=
  match
    (transcript_list <- list_transcripts video_id ;;
     transcript <- choose_track transcript_list ;;
     transcript_data <- fetch transcript ;;
     Return (PyStr.join " " (map text transcript_data)))
  with
  | Return full_text => Return full_text
  | Raise e =>
      if is_transcript_unavailable (cls e)
      then Raise (Exception "No transcript available for this video.")
      else Raise (Exception ("Failed to get transcript: " ++ str e))
  end.

(** [content] as the provider gave it; [if not content: raise ...]. *)
Definition require_content (content : option string) : result string :=
  match content with
  | None => Raise (Exception "No content received from AI")
  | Some c =>
      if PyStr.truthy c then Return c
      else Raise (Exception "No content received from AI")
  end.

Definition summary_request (transcript length : string) : chat_request :=
  {| model := getenv_model "gpt-3.5-turbo";
     messages := [ ("user", summary_prompt transcript length) ];
     max_tokens := 500;
     temperature := 7 # 10 |}.

(** [generate_summary_with_ai(transcript, length)]. The request is
    logged when it is sent. *)
Definition generate_summary_with_ai (transcript length : string)
    (log : llm_log) : result string * llm_log :=
  let request := summary_request transcript length in
  (try_except
     (content <- chat_completion request ;;
      content <- require_content content ;;
      Return (PyStr.strip content))
     any_exception
     (fun e => Raise (Exception ("Failed to generate summary: " ++ str e))),
   (log ++ [request])%list).

(** The default of the parameter [length]. *)
Definition default_length : string := "medium".

(** The text between the first opening brace and the last closing
    brace of [content], both included. *)
Definition json_payload (content : string) : string :=
  PyStr.slice content (PyStr.find "{" content) (PyStr.rfind "}" content + 1).

(** The inner [try] of both parsers: it differs in the field that is
    read and in the fallback only. The argument is the stripped
    content. *)
Definition extract_field (field : string) (fallback : json)
    (content : string) : result json :=
  try_except
    (let start_idx := PyStr.find "{" content in
     let end_idx := PyStr.rfind "}" content + 1 in
     if negb (start_idx =? -1)%Z && negb (end_idx =? 0)%Z then
       let json_str := PyStr.slice content start_idx end_idx in
       data <- json_loads json_str ;;
       json_get data field (JArray [])
     else Raise (Exception "No JSON found in response"))
    is_json_decode_error
    (fun _ => Return fallback).

(** The parsing step of [generate_quiz_with_ai]: from the content of
    the response to the value returned or the exception raised. *)
Definition parse_quiz (content : option string) : result json :=
  try_except
    (content <- require_content content ;;
     extract_field "questions" fallback_questions (PyStr.strip content))
    any_exception
    (fun e => Raise (Exception ("Failed to generate quiz: " ++ str e))).

(** The parsing step of [generate_matching_pairs_with_ai]. *)
Definition parse_pairs (content : option string) : result json :=
  try_except
    (content <- require_content content ;;
     extract_field "pairs" fallback_pairs (PyStr.strip content))
    any_exception
    (fun e =>
       Raise (Exception ("Failed to generate matching pairs: " ++ str e))).

Definition quiz_request (summary : string) : chat_request :=
  {| model := getenv_model "gpt-3.5-turbo";
     messages := [ ("user", quiz_prompt summary) ];
     max_tokens := 800;
     temperature := 7 # 10 |}.

Definition pairs_request (summary : string) : chat_request :=
  {| model := getenv_model "gpt-3.5-turbo";
     messages := [ ("user", pairs_prompt summary) ];
     max_tokens := 600;
     temperature := 7 # 10 |}.

Definition generate_quiz_with_ai (summary : string) (log : llm_log)
  : result json * llm_log :=
  let request := quiz_request summary in
  (match chat_completion request with
   | Raise e => Raise (Exception ("Failed to generate quiz: " ++ str e))
   | Return content => parse_quiz content
   end,
   (log ++ [request])%list).

Definition generate_matching_pairs_with_ai (summary : string) (log : llm_log)
  : result json * llm_log :=
  let request := pairs_request summary in
  (match chat_completion request with
   | Raise e =>
       Raise (Exception ("Failed to generate matching pairs: " ++ str e))
   | Return content => parse_pairs content
   end,
   (log ++ [request])%list).

(** *** The handlers *)

(** A response: the JSON body and the status code. *)
Definition response : Type := (json * Z)%type.

Definition error_response (msg : string) (status : Z) : response :=
  (JObject [ ("error", JString msg) ], status).

(** The body of a request after [request.get_json()], read through
    [data.get(field)]: [None] when the field is absent or null. The
    handlers are modelled on bodies whose field is a string. *)
Record summarize_body : Type := mkSummarizeBody { url : option string }.
Record summary_body : Type := mkSummaryBody { summary : option string }.

(** [not x] for [x = data.get(field)]. *)
Definition missing (x : option string) : bool :=
  match x with
  | None => true
  | Some s => negb (PyStr.truthy s)
  end.

(** [POST /api/summarize] *)
Definition summarize (data : summarize_body) (log : llm_log)
  : response * llm_log :=
  match url data with
  | None => (error_response "URL is required" 400, log)
  | Some u =>
      if negb (PyStr.truthy u) then (error_response "URL is required" 400, log)
      else
        match extract_video_id u with
        | None => (error_response "Invalid YouTube URL" 400, log)
        | Some video_id =>
            if negb (PyStr.truthy video_id)
            then (error_response "Invalid YouTube URL" 400, log)
            else
              match get_youtube_transcript video_id with
              | Raise e => (error_response (str e) 500, log)
              | Return transcript =>
                  match generate_summary_with_ai transcript default_length log
                  with
                  | (Raise e, log') => (error_response (str e) 500, log')
                  | (Return s, log') =>
                      ((JObject [ ("summary", JString s);
                                  ("transcript", JString transcript);
                                  ("video_id", JString video_id) ], 200),
                       log')
                  end
              end
        end
  end.

(** [POST /api/generate-quiz] *)
Definition generate_quiz (data : summary_body) (log : llm_log)
  : response * llm_log :=
  match summary data with
  | None => (error_response "Summary is required" 400, log)
  | Some s =>
      if negb (PyStr.truthy s)
      then (error_response "Summary is required" 400, log)
      else
        match generate_quiz_with_ai s log with
        | (Raise e, log') => (error_response (str e) 500, log')
        | (Return questions, log') =>
            ((JObject [ ("questions", questions) ], 200), log')
        end
  end.

(** [POST /api/generate-matching-pairs] *)
Definition generate_matching_pairs (data : summary_body) (log : llm_log)
  : response * llm_log :=
  match summary data with
  | None => (error_response "Summary is required" 400, log)
  | Some s =>
      if negb (PyStr.truthy s)
      then (error_response "Summary is required" 400, log)
      else
        match generate_matching_pairs_with_ai s log with
        | (Raise e, log') => (error_response (str e) 500, log')
        | (Return pairs, log') =>
            ((JObject [ ("pairs", pairs) ], 200), log')
        end
  end.

(** [GET /health] *)
Definition health_check : response :=
  (JObject [ ("status", JString "healthy") ], 200).

End Backend.

(* ================================================================= *)
(** ** The handlers on any request body *)

(** The handlers above read a field that is a string or is missing.
    Here the body is whatever [request.get_json()] gives: an exception,
    or any decoded document ([JNull] for [None]). Three facts of the
    interpreter are parameters: which floats are zero, the message of
    the [TypeError] of [re.search] on a value that is not a string, and
    the text an f-string writes for a value that is not a string. *)
Section Surface.

Variable list_transcripts : string -> result TranscriptList.
Variable chat_completion : chat_request -> result (option string).
Variable json_loads : string -> result json.
Variable OPENAI_MODEL : option string.
Variable float_is_zero : string -> bool.
Variable search_type_error : json -> string.
Variable format_value : json -> string.

(** The truth value of a decoded value: [not v] holds of [None],
    [False], zero and the empty string, list and dictionary. *)
Definition json_truthy (v : json) : bool :=
  match v with
  | JNull => false
  | JBool b => b
  | JInt n => negb (n =? 0)%Z
  | JFloat x => negb (float_is_zero x)
  | JString s => PyStr.truthy s
  | JArray items => match items with [] => false | _ => true end
  | JObject fields => match fields with [] => false | _ => true end
  end.

(** What [f"{v}"] writes. *)
Definition text_of (v : json) : string :=
  match v with
  | JString s => s
  | _ => format_value v
  end.

(** [data.get(field)] on the body, inside the [try] of the handler. *)
Definition field_of (body : result json) (field : string) : result json :=
  bind body (fun data => json_get data field JNull).


(** [POST /api/generate-quiz] on any body. *)
Definition generate_quiz_json (body : result json) (log : llm_log)
  : response * llm_log :=
  match field_of body "summary" with
  | Raise e => (error_response (str e) 500, log)
  | Return v =>
      if negb (json_truthy v)
      then (error_response "Summary is required" 400, log)
      else
        match generate_quiz_with_ai chat_completion json_loads OPENAI_MODEL
                (text_of v) log with
        | (Raise e, log') => (error_response (str e) 500, log')
        | (Return questions, log') =>
            ((JObject [ ("questions", questions) ], 200), log')
        end
  end.

(** [POST /api/generate-matching-pairs] on any body. *)
Definition generate_matching_pairs_json (body : result json) (log : llm_log)
  : response * llm_log :=
  match field_of body "summary" with
  | Raise e => (error_response (str e) 500, log)
  | Return v =>
      if negb (json_truthy v)
      then (error_response "Summary is required" 400, log)
      else
        match generate_matching_pairs_with_ai chat_completion json_loads
                OPENAI_MODEL (text_of v) log with
        | (Raise e, log') => (error_response (str e) 500, log')
        | (Return pairs, log') =>
            ((JObject [ ("pairs", pairs) ], 200), log')
        end
  end.

End Surface.

(* ================================================================= *)
(** ** An executable JSON decoder for the closed examples *)

(** The theorems below hold for every decoder; the closed examples need
    one that runs. [Json.loads] follows the scanner of the standard
    library on objects, arrays, strings with the one-character escapes,
    numbers and the literals. The [\u] escapes, which can denote
    characters outside this model of strings, are not covered: a text
    that uses one is reported as undecodable. The message of the
    decode error is not modelled, no caller reads it. *)
Module Json.

Definition is_ws (a : ascii) : bool :=
  (Ascii.eqb a " " || Ascii.eqb a "009" || Ascii.eqb a "010"
   || Ascii.eqb a "013")%char.

Fixpoint skip_ws (s : string) : string :=
  match s with
  | String a s' => if is_ws a then skip_ws s' else s
  | EmptyString => EmptyString
  end.

Definition is_digit (a : ascii) : bool :=
  let n := Z.of_N (N_of_ascii a) in (48 <=? n) && (n <=? 57).

(** The digits at the head of [s] and what follows them. *)
Fixpoint take_digits (s : string) : string * string :=
  match s with
  | String a s' =>
      if is_digit a
      then let '(d, r) := take_digits s' in (String a d, r)
      else (EmptyString, s)
  | EmptyString => (EmptyString, EmptyString)
  end.

Fixpoint digits_value (acc : Z) (d : string) : Z :=
  match d with
  | String a d' => digits_value (10 * acc + (Z.of_N (N_of_ascii a) - 48)) d'
  | EmptyString => acc
  end.

(** The escapes [BACKSLASH] knows. *)
Definition unescape (e : ascii) : option ascii :=
  if Ascii.eqb e (ascii_of_nat 34) then Some (ascii_of_nat 34)
  else if Ascii.eqb e (ascii_of_nat 92) then Some (ascii_of_nat 92)
  else if Ascii.eqb e "/" then Some "/"%char
  else if Ascii.eqb e "b" then Some (ascii_of_nat 8)
  else if Ascii.eqb e "f" then Some (ascii_of_nat 12)
  else if Ascii.eqb e "n" then Some (ascii_of_nat 10)
  else if Ascii.eqb e "r" then Some (ascii_of_nat 13)
  else if Ascii.eqb e "t" then Some (ascii_of_nat 9)
  else None.

(** The text of a string behind its opening quote, and what follows the
    closing quote. Control characters are refused (strict mode). *)
Fixpoint scanstring (s : string) : option (string * string) :=
  match s with
  | EmptyString => None
  | String a s' =>
      if Ascii.eqb a (ascii_of_nat 34) then Some (EmptyString, s')
      else if Ascii.eqb a (ascii_of_nat 92) then
        match s' with
        | String e s'' =>
            match unescape e, scanstring s'' with
            | Some c, Some (r, rest) => Some (String c r, rest)
            | _, _ => None
            end
        | EmptyString => None
        end
      else if Z.of_N (N_of_ascii a) <? 32 then None
      else
        match scanstring s' with
        | Some (r, rest) => Some (String a r, rest)
        | None => None
        end
  end.

(** [NUMBER_RE]: an integer part, then an optional fraction and an
    optional exponent, each taken only when it has digits. *)
Definition scan_number (s : string) : option (json * string) :=
  let '(sign, s1) :=
    match s with
    | String "-" r => ("-", r)
    | _ => (EmptyString, s)
    end in
  let '(int_digits, s2) := take_digits s1 in
  let int_part : option (string * string) :=
    match int_digits with
    | EmptyString => None
    | String "0" _ =>
        match s1 with
        | String _ r => Some ("0", r)
        | EmptyString => None
        end
    | _ => Some (int_digits, s2)
    end in
  match int_part with
  | None => None
  | Some (ip, s3) =>
      let '(frac, s4) :=
        match s3 with
        | String "." r =>
            match take_digits r with
            | (EmptyString, _) => (EmptyString, s3)
            | (d, r') => ("." ++ d, r')
            end
        | _ => (EmptyString, s3)
        end in
      let exponent (mark : string) (r : string) : string * string :=
        let '(esign, r1) :=
          match r with
          | String "+" t => ("+", t)
          | String "-" t => ("-", t)
          | _ => (EmptyString, r)
          end in
        match take_digits r1 with
        | (EmptyString, _) => (EmptyString, s4)
        | (d, r') => (mark ++ esign ++ d, r')
        end in
      let '(exp, s5) :=
        match s4 with
        | String "e" r => exponent "e" r
        | String "E" r => exponent "E" r
        | _ => (EmptyString, s4)
        end in
      match frac, exp with
      | EmptyString, EmptyString =>
          let v := digits_value 0 ip in
          Some (JInt (if String.eqb sign "-" then - v else v), s5)
      | _, _ => Some (JFloat (sign ++ ip ++ frac ++ exp), s5)
      end
  end.

(** The literals and the numbers: the cases of [scan_once] that do not
    nest. *)
Definition scan_atom (s : string) : option (json * string) :=
  match Re.literal "null" s with
  | Some r => Some (JNull, r)
  | None =>
  match Re.literal "true" s with
  | Some r => Some (JBool true, r)
  | None =>
  match Re.literal "false" s with
  | Some r => Some (JBool false, r)
  | None =>
  match scan_number s with
  | Some x => Some x
  | None =>
  match Re.literal "NaN" s with
  | Some r => Some (JFloat "NaN", r)
  | None =>
  match Re.literal "Infinity" s with
  | Some r => Some (JFloat "Infinity", r)
  | None =>
  match Re.literal "-Infinity" s with
  | Some r => Some (JFloat "-Infinity", r)
  | None => None
  end end end end end end end.

(** [dict(pairs)]: a key read again keeps its place and takes the later
    value. *)
Fixpoint dict_set (k : string) (v : json) (d : list (string * json))
  : list (string * json) :=
  match d with
  | [] => [ (k, v) ]
  | (k', v') :: rest =>
      if String.eqb k' k then (k', v) :: rest else (k', v') :: dict_set k v rest
  end.

Definition dict_of_pairs (pairs : list (string * json)) : list (string * json) :=
  fold_left (fun d kv => dict_set (fst kv) (snd kv) d) pairs [].

Fixpoint scan_once (fuel : nat) (s : string) {struct fuel}
  : option (json * string) :=
  match fuel with
  | O => None
  | S f =>
      match s with
      | EmptyString => None
      | String c s' =>
          if Ascii.eqb c (ascii_of_nat 34) then
            match scanstring s' with
            | Some (t, r) => Some (JString t, r)
            | None => None
            end
          else if Ascii.eqb c "{" then
            match skip_ws s' with
            | String "}" r => Some (JObject [], r)
            | t =>
                match object_items f t with
                | Some (pairs, r) => Some (JObject (dict_of_pairs pairs), r)
                | None => None
                end
            end
          else if Ascii.eqb c "[" then
            match skip_ws s' with
            | String "]" r => Some (JArray [], r)
            | t =>
                match array_items f t with
                | Some (items, r) => Some (JArray items, r)
                | None => None
                end
            end
          else scan_atom s
      end
  end

with array_items (fuel : nat) (s : string) {struct fuel}
  : option (list json * string) :=
  match fuel with
  | O => None
  | S f =>
      match scan_once f s with
      | Some (v, r) =>
          match skip_ws r with
          | String "]" r' => Some ([v], r')
          | String "," r' =>
              match array_items f (skip_ws r') with
              | Some (vs, r'') => Some (v :: vs, r'')
              | None => None
              end
          | _ => None
          end
      | None => None
      end
  end

with object_items (fuel : nat) (s : string) {struct fuel}
  : option (list (string * json) * string) :=
  match fuel with
  | O => None
  | S f =>
      match s with
      | String c s1 =>
          if Ascii.eqb c (ascii_of_nat 34) then
            match scanstring s1 with
            | Some (k, r1) =>
                match skip_ws r1 with
                | String ":" r2 =>
                    match scan_once f (skip_ws r2) with
                    | Some (v, r3) =>
                        match skip_ws r3 with
                        | String "}" r => Some ([ (k, v) ], r)
                        | String "," r =>
                            match object_items f (skip_ws r) with
                            | Some (kvs, r') => Some ((k, v) :: kvs, r')
                            | None => None
                            end
                        | _ => None
                        end
                    | None => None
                    end
                | _ => None
                end
            | None => None
            end
          else None
      | EmptyString => None
      end
  end.

Definition decode_error : exn := mkExn JSONDecodeError "invalid JSON text".

(** [json.loads(s)]: one value between optional white space, and
    nothing behind it. *)
Definition loads (s : string) : result json :=
  match scan_once (2 * String.length s + 2) (skip_ws s) with
  | Some (v, r) =>
      match skip_ws r with
      | EmptyString => Return v
      | _ => Raise decode_error
      end
  | None => Raise decode_error
  end.

(** *** The decoder with its limit of nesting

    The scanner of the standard library enters a recursive call for
    every object and every array it meets, and the interpreter raises
    [RecursionError] when the calls nest deeper than its limit. The
    error is raised where the container opens, before the rest of the
    text is looked at; it is not a decode error. *)

Inductive scanned (A : Type) : Type :=
| Scanned (a : A) (rest : string)
| Malformed
| TooDeep (container : string).
Arguments Scanned {A} a rest.
Arguments Malformed {A}.
Arguments TooDeep {A} container.

Fixpoint scan_nested (fuel depth : nat) (s : string) {struct fuel}
  : scanned json :=
  match fuel with
  | O => Malformed
  | S f =>
      match s with
      | EmptyString => Malformed
      | String c s' =>
          if Ascii.eqb c (ascii_of_nat 34) then
            match scanstring s' with
            | Some (t, r) => Scanned (JString t) r
            | None => Malformed
            end
          else if Ascii.eqb c "{" then
            match depth with
            | O => TooDeep "object"
            | S d =>
                match skip_ws s' with
                | String "}" r => Scanned (JObject []) r
                | t =>
                    match members_nested f d t with
                    | Scanned pairs r => Scanned (JObject (dict_of_pairs pairs)) r
                    | Malformed => Malformed
                    | TooDeep k => TooDeep k
                    end
                end
            end
          else if Ascii.eqb c "[" then
            match depth with
            | O => TooDeep "array"
            | S d =>
                match skip_ws s' with
                | String "]" r => Scanned (JArray []) r
                | t =>
                    match items_nested f d t with
                    | Scanned items r => Scanned (JArray items) r
                    | Malformed => Malformed
                    | TooDeep k => TooDeep k
                    end
                end
            end
          else
            match scan_atom s with
            | Some (v, r) => Scanned v r
            | None => Malformed
            end
      end
  end

with items_nested (fuel depth : nat) (s : string) {struct fuel}
  : scanned (list json) :=
  match fuel with
  | O => Malformed
  | S f =>
      match scan_nested f depth s with
      | Scanned v r =>
          match skip_ws r with
          | String "]" r' => Scanned [v] r'
          | String "," r' =>
              match items_nested f depth (skip_ws r') with
              | Scanned vs r'' => Scanned (v :: vs) r''
              | Malformed => Malformed
              | TooDeep k => TooDeep k
              end
          | _ => Malformed
          end
      | Malformed => Malformed
      | TooDeep k => TooDeep k
      end
  end

with members_nested (fuel depth : nat) (s : string) {struct fuel}
  : scanned (list (string * json)) :=
  match fuel with
  | O => Malformed
  | S f =>
      match s with
      | String c s1 =>
          if Ascii.eqb c (ascii_of_nat 34) then
            match scanstring s1 with
            | Some (k, r1) =>
                match skip_ws r1 with
                | String ":" r2 =>
                    match scan_nested f depth (skip_ws r2) with
                    | Scanned v r3 =>
                        match skip_ws r3 with
                        | String "}" r => Scanned [ (k, v) ] r
                        | String "," r =>
                            match members_nested f depth (skip_ws r) with
                            | Scanned kvs r' => Scanned ((k, v) :: kvs) r'
                            | Malformed => Malformed
                            | TooDeep x => TooDeep x
                            end
                        | _ => Malformed
                        end
                    | Malformed => Malformed
                    | TooDeep x => TooDeep x
                    end
                | _ => Malformed
                end
            | None => Malformed
            end
          else Malformed
      | EmptyString => Malformed
      end
  end.

Definition recursion_error (container : string) : exn :=
  mkExn (OtherError "RecursionError")
    ("maximum recursion depth exceeded while decoding a JSON "
     ++ container ++ " from a unicode string").

(** [json.loads(s)] under an interpreter that lets containers nest
    [limit] deep. *)
Definition loads_limited (limit : nat) (s : string) : result json :=
  match scan_nested (2 * String.length s + 2) limit (skip_ws s) with
  | Scanned v r =>
      match skip_ws r with
      | EmptyString => Return v
      | _ => Raise decode_error
      end
  | Malformed => Raise decode_error
  | TooDeep container => Raise (recursion_error container)
  end.

End Json.


(* ================================================================= *)
(** ** Notions of the specification *)

(** A URL contains the first recognised shape: one of the three
    literals followed by at least one identifier character. *)
Definition direct_shape (url : string) : Prop :=
  exists pre c rest,
    Re.id_char c = true /\
    (url = pre ++ "youtube.com/watch?v=" ++ String c rest \/
     url = pre ++ "youtu.be/" ++ String c rest \/
     url = pre ++ "youtube.com/embed/" ++ String c rest).

(** A URL contains the second recognised shape: the watch page, then
    on the same line a parameter [v=] with at least one identifier
    character. *)
Definition query_shape (url : string) : Prop :=
  exists pre mid c rest,
    PyStr.all_chars Re.dot mid = true /\
    Re.id_char c = true /\
    url = pre ++ "youtube.com/watch?" ++ mid ++ "v=" ++ String c rest.

Definition recognized_shape (url : string) : Prop :=
  direct_shape url \/ query_shape url.

(** What may follow an identifier in a URL: nothing, or a character
    that is not an identifier character. *)
Definition ends_id (rest : string) : bool :=
  match rest with
  | EmptyString => true
  | String a _ => negb (Re.id_char a)
  end.

Definition is_string (v : json) : bool :=
  match v with JString _ => true | _ => false end.

Definition is_string_eq (a : string) (v : json) : bool :=
  match v with JString s => String.eqb s a | _ => false end.

(** The invariant the data model states for a quiz question: a
    question text, exactly four option strings, and an answer that is
    one of the options. *)
Definition is_quiz_question (v : json) : bool :=
  match v with
  | JObject d =>
      match assoc "question" d, assoc "options" d, assoc "answer" d with
      | Some (JString _), Some (JArray opts), Some (JString a) =>
          (Nat.eqb (List.length opts) 4) && forallb is_string opts
          && existsb (is_string_eq a) opts
      | _, _, _ => false
      end
  | _ => false
  end.

Definition all_quiz_questions (v : json) : bool :=
  match v with
  | JArray items => forallb is_quiz_question items
  | _ => false
  end.

(** One of the two calls to the transcript provider whose exceptions
    reach the outer handlers of [get_youtube_transcript] raises [e]:
    the listing of the tracks, or the fetch of the chosen track. *)
Definition provider_failure (list_transcripts : string -> result TranscriptList)
    (video_id : string) (e : exn) : Prop :=
  list_transcripts video_id = Raise e \/
  exists tl t,
    list_transcripts video_id = Return tl /\
    choose_track tl = Return t /\
    fetch t = Raise e.

(* ================================================================= *)
(** ** Providers for the closed examples *)

(** A chat provider that answers every request with [content]. *)
Definition chat_answers (content : option string)
  : chat_request -> result (option string) :=
  fun _ => Return content.

Definition track_of (texts : list string) : Transcript :=
  mkTranscript (Return (map (fun t => mkFragment t (0 # 1) (1 # 1)) texts)).

(** A video with an English track. *)
Definition english_video (texts : list string)
  : string -> result TranscriptList :=
  fun _ => Return (mkTranscriptList (fun _ => Return (track_of texts))
                     [ track_of texts ]).

(** A video with one track, which is not English: the provider signals
    that no English transcript was found. *)
Definition foreign_video (texts : list string)
  : string -> result TranscriptList :=
  fun _ =>
    Return (mkTranscriptList
              (fun _ => Raise (mkExn NoTranscriptFound
                                 "No transcripts were found for any of the requested language codes: ['en']"))
              [ track_of texts ]).

(** A video whose subtitles are disabled. *)
Definition disabled_video : string -> result TranscriptList :=
  fun _ => Raise (mkExn TranscriptsDisabled
                    "Subtitles are disabled for this video").

(** A provider that cannot be reached. *)
Definition unreachable_provider : string -> result TranscriptList :=
  fun _ => Raise (mkExn (OtherError "ConnectionError") "connection refused").

(** The answer of a language model that replies with a question of one
    option whose answer is not among the options. *)
Definition short_question_answer : string :=
  "{" ++ dquote ++ "questions" ++ dquote ++ ": [{"
  ++ dquote ++ "question" ++ dquote ++ ": " ++ dquote ++ "Q?" ++ dquote ++ ", "
  ++ dquote ++ "options" ++ dquote ++ ": [" ++ dquote ++ "A" ++ dquote ++ "], "
  ++ dquote ++ "answer" ++ dquote ++ ": " ++ dquote ++ "Z" ++ dquote ++ "}]}".

(** An answer with a well-formed object that has neither field. *)
Definition other_field_answer : string :=
  "Sure! {" ++ dquote ++ "items" ++ dquote ++ ": [1, 2]} Hope it helps.".

(** An answer whose object holds arrays nested a hundred thousand
    deep, none of them closed. *)
#[warnings="-abstract-large-number"]
Definition deep_answer : string :=
  "{" ++ dquote ++ "a" ++ dquote ++ ": "
  ++ string_of_list_ascii (repeat "["%char 100000) ++ "}".

(** A transcript of ten thousand characters. *)
#[warnings="-abstract-large-number"]
Definition long_transcript : string :=
  string_of_list_ascii (repeat "a"%char 10000).

(* ================================================================= *)
(** ** The set-up check (backend/test_setup.py) *)

(** The script is modelled by what its functions return and by the exit
    status of [main]; the lines it prints are left out. Whether a
    package can be imported and what [load_dotenv] does to the
    environment are parameters; the imports at the head of the script
    itself are taken to succeed. *)
Module Setup.

(** The process environment: names and their values. *)
Definition environ : Type := list (string * string).

(** [os.getenv(name)] *)
Definition getenv (env : environ) (name : string) : option string :=
  assoc name env.

Section Checks.

(** [import name] succeeds (otherwise it raises [ImportError]). *)
Variable importable : string -> bool.

(** The environment [load_dotenv()] leaves. *)
Variable load_dotenv : environ -> environ.

(** The imports are tried in the order written; the first that fails
    ends the test. *)
Definition test_imports : bool :=
  if importable "flask" then
    if importable "openai" then importable "youtube_transcript_api"
    else false
  else false.

(** [bool(api_key)] after the [.env] file was loaded; the environment
    keeps what was loaded. *)
Definition test_env_vars (env : environ) : bool * environ :=
  let env' := load_dotenv env in
  (match getenv env' "OPENAI_API_KEY" with
   | Some api_key => PyStr.truthy api_key
   | None => false
   end,
   env').

(** The assertion [openai.api_key is not None]; a failed import or a
    failed assertion is caught and answered with [False]. *)
Definition test_openai_client (env : environ) : bool :=
  if importable "openai" then
    match getenv env "OPENAI_API_KEY" with
    | Some _ => true
    | None => false
    end
  else false.

(** The list [tests] of [main], each test on the environment it finds. *)
Definition tests : list (string * (environ -> bool * environ)) :=
  [ ("Package imports", fun env => (test_imports, env));
    ("Environment variables", test_env_vars);
    ("OpenAI client", fun env => (test_openai_client env, env)) ].

(** The loop of [main]: the number of tests that passed. *)
Fixpoint run_tests (ts : list (string * (environ -> bool * environ)))
    (env : environ) (passed : Z) : Z * environ :=
  match ts with
  | [] => (passed, env)
  | (_, test_func) :: ts' =>
      let '(ok, env') := test_func env in
      run_tests ts' env' (if ok then passed + 1 else passed)
  end.

(** The exit status of the script: [sys.exit(1)] unless every test
    passed. *)
Definition main (env : environ) : Z :=
  let passed := fst (run_tests tests env 0) in
  let total := Z.of_nat (List.length tests) in
  if passed =? total then 0 else 1.

End Checks.

End Setup.

(* ================================================================= *)
(** ** Facts about the string operations *)

Section StringFacts.

Local Open Scope nat_scope.

Lemma append_empty_r (s : string) : (s ++ "")%string = s.
Proof. induction s as [|a s IH]; simpl; [reflexivity | now rewrite IH]. Qed.

Lemma append_assoc (s t u : string) :
  ((s ++ t) ++ u)%string = (s ++ (t ++ u))%string.
Proof. induction s as [|a s IH]; simpl; [reflexivity | now rewrite IH]. Qed.

Lemma length_append (s t : string) :
  String.length (s ++ t) = String.length s + String.length t.
Proof. induction s as [|a s IH]; simpl; [reflexivity | now rewrite IH]. Qed.

Lemma substring_append (n m : nat) (p t : string) :
  n + m <= String.length p ->
  substring n m (p ++ t) = substring n m p.
Proof.
  revert n m. induction p as [|a p IH]; intros n m H; simpl in H.
  - assert (n = 0) by lia. assert (m = 0) by lia. subst.
    destruct t; reflexivity.
  - destruct n as [|n]; simpl.
    + destruct m as [|m]; [reflexivity|].
      f_equal. apply (IH 0 m). simpl. lia.
    + apply IH. lia.
Qed.

Lemma substring_zero (n : nat) (s : string) : substring n 0 s = ""%string.
Proof.
  revert n. induction s as [|a s IH]; intros [|n]; simpl; auto.
Qed.

Lemma substring_prefix (m : nat) (s : string) :
  exists rest, s = (substring 0 m s ++ rest)%string.
Proof.
  revert m. induction s as [|a s IH]; intros [|m]; simpl.
  - now exists ""%string.
  - now exists ""%string.
  - now exists (String a s).
  - destruct (IH m) as [rest E]. exists rest. now rewrite <- E.
Qed.

Lemma substring_length (m : nat) (s : string) :
  String.length (substring 0 m s) = Nat.min m (String.length s).
Proof.
  revert m. induction s as [|a s IH]; intros [|m]; simpl; auto.
Qed.

Lemma substring_all (m : nat) (s : string) :
  String.length s <= m -> substring 0 m s = s.
Proof.
  revert m. induction s as [|a s IH]; intros [|m] H; simpl in *;
    try reflexivity; try lia.
  f_equal. apply IH. lia.
Qed.

End StringFacts.

Section FindFacts.

Variable c : ascii.

Lemma find_absent (s : string) :
  PyStr.contains c s = false -> PyStr.find c s = -1.
Proof.
  induction s as [|a s IH]; simpl; [reflexivity|].
  destruct (Ascii.eqb a c); simpl; [discriminate|].
  intros H. rewrite (IH H). reflexivity.
Qed.

Lemma find_present (s : string) :
  PyStr.contains c s = true ->
  0 <= PyStr.find c s < Z.of_nat (String.length s).
Proof.
  induction s as [|a s IH]; simpl String.length; simpl; [discriminate|].
  destruct (Ascii.eqb a c); simpl; [lia|].
  intros H. specialize (IH H).
  destruct (Z.eqb_spec (PyStr.find c s) (-1)); lia.
Qed.

Lemma rfind_absent (s : string) :
  PyStr.contains c s = false -> PyStr.rfind c s = -1.
Proof.
  induction s as [|a s IH]; simpl; [reflexivity|].
  destruct (Ascii.eqb a c); simpl; [discriminate|].
  intros H. rewrite (IH H). reflexivity.
Qed.

Lemma rfind_present (s : string) :
  PyStr.contains c s = true ->
  0 <= PyStr.rfind c s < Z.of_nat (String.length s).
Proof.
  induction s as [|a s IH]; simpl String.length; simpl; [discriminate|].
  destruct (PyStr.contains c s) eqn:E.
  - intros _. specialize (IH eq_refl).
    destruct (Z.eqb_spec (PyStr.rfind c s) (-1)); lia.
  - rewrite (rfind_absent s E). simpl.
    destruct (Ascii.eqb a c); simpl; [lia | discriminate].
Qed.

Lemma find_cons_other (a : ascii) (s : string) :
  Ascii.eqb a c = false -> PyStr.contains c s = true ->
  PyStr.find c (String a s) = PyStr.find c s + 1.
Proof.
  intros Ha Hc. simpl. rewrite Ha.
  pose proof (find_present s Hc).
  destruct (Z.eqb_spec (PyStr.find c s) (-1)); lia.
Qed.

Lemma rfind_cons_present (a : ascii) (s : string) :
  PyStr.contains c s = true ->
  PyStr.rfind c (String a s) = PyStr.rfind c s + 1.
Proof.
  intros Hc. simpl.
  pose proof (rfind_present s Hc).
  destruct (Z.eqb_spec (PyStr.rfind c s) (-1)); lia.
Qed.

Lemma contains_append (s t : string) :
  PyStr.contains c (s ++ t) = PyStr.contains c s || PyStr.contains c t.
Proof.
  induction s as [|a s IH]; simpl; [reflexivity|].
  rewrite IH. now rewrite orb_assoc.
Qed.

Lemma find_append (p t : string) :
  PyStr.contains c p = true -> PyStr.find c (p ++ t) = PyStr.find c p.
Proof.
  induction p as [|a p IH]; simpl; [discriminate|].
  destruct (Ascii.eqb a c); simpl; [reflexivity|].
  intros H. now rewrite (IH H).
Qed.

Lemma rfind_append (p t : string) :
  PyStr.contains c t = false -> PyStr.rfind c (p ++ t) = PyStr.rfind c p.
Proof.
  intros Ht. induction p as [|a p IH]; simpl.
  - now apply rfind_absent.
  - now rewrite IH.
Qed.

Lemma contains_all_other (p : ascii -> bool) (t : string) :
  p c = false -> PyStr.all_chars p t = true -> PyStr.contains c t = false.
Proof.
  intros Hp. induction t as [|a t IH]; simpl; [reflexivity|].
  intros H. apply andb_true_iff in H. destruct H as [Ha Ht].
  rewrite (IH Ht), orb_false_r.
  destruct (Ascii.eqb_spec a c); [congruence | reflexivity].
Qed.

End FindFacts.

Section SliceFacts.

Lemma slice_cons (a : ascii) (s : string) (i j : Z) :
  0 <= i -> 0 <= j ->
  PyStr.slice (String a s) (i + 1) (j + 1) = PyStr.slice s i j.
Proof.
  intros Hi Hj. unfold PyStr.slice, PyStr.clamp.
  simpl String.length.
  set (len := Z.of_nat (String.length s)).
  replace (Z.of_nat (S (String.length s))) with (len + 1) by (subst len; lia).
  destruct (Z.ltb_spec (i + 1) 0); [lia|].
  destruct (Z.ltb_spec (j + 1) 0); [lia|].
  destruct (Z.ltb_spec i 0); [lia|].
  destruct (Z.ltb_spec j 0); [lia|].
  replace (Z.min (i + 1) (len + 1)) with (Z.min i len + 1) by lia.
  replace (Z.min (j + 1) (len + 1)) with (Z.min j len + 1) by lia.
  replace (Z.min j len + 1 - (Z.min i len + 1)) with (Z.min j len - Z.min i len)
    by lia.
  replace (Z.to_nat (Z.min i len + 1)) with (S (Z.to_nat (Z.min i len)))
    by (subst len; lia).
  reflexivity.
Qed.

Lemma slice_append (p t : string) (i j : Z) :
  0 <= i -> 0 <= j <= Z.of_nat (String.length p) ->
  PyStr.slice (p ++ t) i j = PyStr.slice p i j.
Proof.
  intros Hi Hj. unfold PyStr.slice, PyStr.clamp.
  rewrite length_append.
  destruct (Z.ltb_spec i 0); [lia|].
  destruct (Z.ltb_spec j 0); [lia|].
  set (lp := String.length p) in *. set (lt := String.length t).
  replace (Z.min j (Z.of_nat (lp + lt))) with j by lia.
  replace (Z.min j (Z.of_nat lp)) with j by lia.
  destruct (Z.le_gt_cases i j) as [Hij | Hij].
  - replace (Z.min i (Z.of_nat (lp + lt))) with i by lia.
    replace (Z.min i (Z.of_nat lp)) with i by lia.
    apply substring_append. fold lp. lia.
  - replace (Z.to_nat (j - Z.min i (Z.of_nat (lp + lt)))) with 0%nat by lia.
    replace (Z.to_nat (j - Z.min i (Z.of_nat lp))) with 0%nat by lia.
    now rewrite !substring_zero.
Qed.

(** [s[:n]] is the first [n] characters of [s], or all of [s]. *)
Lemma slice_from_start (s : string) (n : Z) :
  0 <= n ->
  PyStr.slice s 0 n = substring 0 (Z.to_nat n) s.
Proof.
  intros Hn. unfold PyStr.slice, PyStr.clamp. simpl (0 <? 0).
  destruct (Z.ltb_spec n 0); [lia|].
  set (len := String.length s).
  replace (Z.min 0 (Z.of_nat len)) with 0 by lia. simpl Z.to_nat.
  rewrite Z.sub_0_r.
  destruct (Z.le_gt_cases n (Z.of_nat len)).
  - now replace (Z.min n (Z.of_nat len)) with n by lia.
  - replace (Z.min n (Z.of_nat len)) with (Z.of_nat len) by lia.
    rewrite Nat2Z.id, !substring_all; subst len; [reflexivity | lia | lia].
Qed.

End SliceFacts.

Section StripFacts.

(** [rstrip] cuts a run of white space off the end. *)
Lemma rstrip_split (s : string) :
  exists t, s = PyStr.rstrip s ++ t /\ PyStr.all_chars PyStr.isspace t = true.
Proof.
  induction s as [|a s [t [E Ht]]]; simpl.
  - now exists "".
  - destruct (PyStr.rstrip s) as [|b r] eqn:Er.
    + destruct (PyStr.isspace a) eqn:Ea.
      * exists (String a s). split; [reflexivity|].
        simpl. rewrite Ea. simpl in E. now rewrite E.
      * exists t. split; [|assumption]. simpl. simpl in E. now rewrite <- E.
    + exists t. split; [|assumption]. simpl. simpl in E. now rewrite <- E.
Qed.

Variable c : ascii.
Hypothesis c_visible : PyStr.isspace c = false.

Lemma contains_lstrip (s : string) :
  PyStr.contains c (PyStr.lstrip s) = PyStr.contains c s.
Proof.
  induction s as [|a s IH]; simpl; [reflexivity|].
  destruct (PyStr.isspace a) eqn:Ea; [|reflexivity].
  rewrite IH. destruct (Ascii.eqb_spec a c); [congruence | reflexivity].
Qed.

Lemma contains_rstrip (s : string) :
  PyStr.contains c (PyStr.rstrip s) = PyStr.contains c s.
Proof.
  destruct (rstrip_split s) as [t [E Ht]].
  rewrite E at 2. rewrite contains_append.
  rewrite (contains_all_other c PyStr.isspace t c_visible Ht).
  now rewrite orb_false_r.
Qed.

Lemma contains_strip (s : string) :
  PyStr.contains c (PyStr.strip s) = PyStr.contains c s.
Proof. unfold PyStr.strip. now rewrite contains_rstrip, contains_lstrip. Qed.

End StripFacts.

Section PayloadFacts.

Lemma payload_lstrip (s : string) :
  PyStr.contains "{" s = true -> PyStr.contains "}" s = true ->
  json_payload (PyStr.lstrip s) = json_payload s.
Proof.
  induction s as [|a s IH]; simpl PyStr.lstrip; [reflexivity|].
  destruct (PyStr.isspace a) eqn:Ea; [|reflexivity].
  intros Ho Hc.
  assert (Hao : Ascii.eqb a "{" = false)
    by (destruct (Ascii.eqb_spec a "{"%char); [subst; discriminate | reflexivity]).
  assert (Hac : Ascii.eqb a "}" = false)
    by (destruct (Ascii.eqb_spec a "}"%char); [subst; discriminate | reflexivity]).
  simpl in Ho, Hc. rewrite Hao in Ho. rewrite Hac in Hc. simpl in Ho, Hc.
  rewrite (IH Ho Hc). unfold json_payload.
  rewrite (find_cons_other _ a s Hao Ho), (rfind_cons_present _ a s Hc).
  pose proof (find_present _ s Ho). pose proof (rfind_present _ s Hc).
  replace (PyStr.rfind "}" s + 1 + 1) with ((PyStr.rfind "}" s + 1) + 1) by lia.
  symmetry. apply slice_cons; lia.
Qed.

Lemma payload_rstrip (s : string) :
  PyStr.contains "{" s = true -> PyStr.contains "}" s = true ->
  json_payload (PyStr.rstrip s) = json_payload s.
Proof.
  intros Ho Hc. destruct (rstrip_split s) as [t [E Ht]].
  assert (Ho' : PyStr.contains "{" (PyStr.rstrip s) = true)
    by (rewrite contains_rstrip; [assumption | reflexivity]).
  assert (Hc' : PyStr.contains "}" (PyStr.rstrip s) = true)
    by (rewrite contains_rstrip; [assumption | reflexivity]).
  set (p := PyStr.rstrip s) in *.
  rewrite E. unfold json_payload.
  rewrite (find_append _ p t Ho').
  rewrite (rfind_append _ p t
             (contains_all_other "}"%char PyStr.isspace t eq_refl Ht)).
  pose proof (find_present _ p Ho'). pose proof (rfind_present _ p Hc').
  symmetry. apply slice_append; lia.
Qed.

(** Stripping the content does not change the text between the first
    opening and the last closing brace. *)
Lemma payload_strip (s : string) :
  PyStr.contains "{" s = true -> PyStr.contains "}" s = true ->
  json_payload (PyStr.strip s) = json_payload s.
Proof.
  intros Ho Hc. unfold PyStr.strip.
  rewrite payload_rstrip.
  - now apply payload_lstrip.
  - rewrite contains_lstrip; [assumption | reflexivity].
  - rewrite contains_lstrip; [assumption | reflexivity].
Qed.

End PayloadFacts.

(* ================================================================= *)
(** ** The parsers of the language-model output *)

Section ParserFacts.

Variable json_loads : string -> result json.

Lemma contains_truthy (c : ascii) (s : string) :
  PyStr.contains c s = true -> PyStr.truthy s = true.
Proof. destruct s; [discriminate | reflexivity]. Qed.

(** Without an opening or without a closing brace the inner [try]
    raises, and its handler does not catch what it raises. *)
Lemma extract_field_no_json (field : string) (fallback : json) (s : string) :
  PyStr.contains "{" s = false \/ PyStr.contains "}" s = false ->
  extract_field json_loads field fallback s
  = Raise (Exception "No JSON found in response").
Proof.
  intros [H | H]; unfold extract_field.
  - rewrite (find_absent _ s H). reflexivity.
  - rewrite (rfind_absent _ s H). simpl (-1 + 1 =? 0).
    rewrite andb_false_r. reflexivity.
Qed.

(** With both braces the payload is decoded; the payload of the
    stripped content is the payload of the content. *)
Lemma extract_field_strip (field : string) (fallback : json) (s : string) :
  PyStr.contains "{" s = true -> PyStr.contains "}" s = true ->
  extract_field json_loads field fallback (PyStr.strip s)
  = try_except
      (bind (json_loads (json_payload s))
            (fun data => json_get data field (JArray [])))
      is_json_decode_error
      (fun _ => Return fallback).
Proof.
  intros Ho Hc. unfold extract_field.
  assert (Ho' : PyStr.contains "{" (PyStr.strip s) = true)
    by (rewrite contains_strip; [assumption | reflexivity]).
  assert (Hc' : PyStr.contains "}" (PyStr.strip s) = true)
    by (rewrite contains_strip; [assumption | reflexivity]).
  pose proof (find_present _ _ Ho') as Hf.
  pose proof (rfind_present _ _ Hc') as Hr.
  destruct (Z.eqb_spec (PyStr.find "{" (PyStr.strip s)) (-1)); [lia|].
  destruct (Z.eqb_spec (PyStr.rfind "}" (PyStr.strip s) + 1) 0); [lia|].
  simpl negb. simpl andb. cbv iota.
  change (PyStr.slice (PyStr.strip s) (PyStr.find "{" (PyStr.strip s))
            (PyStr.rfind "}" (PyStr.strip s) + 1))
    with (json_payload (PyStr.strip s)).
  now rewrite payload_strip.
Qed.

Lemma parse_quiz_no_json (content : string) :
  PyStr.contains "{" content = false \/ PyStr.contains "}" content = false ->
  parse_quiz json_loads (Some content)
  = Raise (Exception
             ("Failed to generate quiz: "
              ++ (if PyStr.truthy content then "No JSON found in response"
                  else "No content received from AI"))).
Proof.
  intros H. unfold parse_quiz, require_content.
  destruct (PyStr.truthy content) eqn:T; [|reflexivity].
  simpl bind. rewrite extract_field_no_json; [reflexivity|].
  destruct H as [H | H]; [left | right];
    (rewrite contains_strip; [assumption | reflexivity]).
Qed.

Lemma parse_pairs_no_json (content : string) :
  PyStr.contains "{" content = false \/ PyStr.contains "}" content = false ->
  parse_pairs json_loads (Some content)
  = Raise (Exception
             ("Failed to generate matching pairs: "
              ++ (if PyStr.truthy content then "No JSON found in response"
                  else "No content received from AI"))).
Proof.
  intros H. unfold parse_pairs, require_content.
  destruct (PyStr.truthy content) eqn:T; [|reflexivity].
  simpl bind. rewrite extract_field_no_json; [reflexivity|].
  destruct H as [H | H]; [left | right];
    (rewrite contains_strip; [assumption | reflexivity]).
Qed.

Lemma parse_quiz_payload (content : string) :
  PyStr.contains "{" content = true -> PyStr.contains "}" content = true ->
  parse_quiz json_loads (Some content)
  = try_except
      (try_except
         (bind (json_loads (json_payload content))
               (fun data => json_get data "questions" (JArray [])))
         is_json_decode_error
         (fun _ => Return fallback_questions))
      any_exception
      (fun e => Raise (Exception ("Failed to generate quiz: " ++ str e))).
Proof.
  intros Ho Hc. unfold parse_quiz, require_content.
  rewrite (contains_truthy _ _ Ho). simpl bind.
  now rewrite extract_field_strip.
Qed.

Lemma parse_pairs_payload (content : string) :
  PyStr.contains "{" content = true -> PyStr.contains "}" content = true ->
  parse_pairs json_loads (Some content)
  = try_except
      (try_except
         (bind (json_loads (json_payload content))
               (fun data => json_get data "pairs" (JArray [])))
         is_json_decode_error
         (fun _ => Return fallback_pairs))
      any_exception
      (fun e =>
         Raise (Exception ("Failed to generate matching pairs: " ++ str e))).
Proof.
  intros Ho Hc. unfold parse_pairs, require_content.
  rewrite (contains_truthy _ _ Ho). simpl bind.
  now rewrite extract_field_strip.
Qed.

(** C1 (amended). When the raw output of the language model has no
    opening brace or no closing brace (in particular when it has
    neither), both parsers fail: the quiz parser raises an exception
    with the message "Failed to generate quiz: No JSON found in
    response", the pairs parser one with "Failed to generate matching
    pairs: No JSON found in response" (the reason reads "No content
    received from AI" when the output is the empty string). The
    fallback sequence is not returned. *)
Theorem no_braces_is_an_error (content : string) :
  PyStr.contains "{" content = false \/ PyStr.contains "}" content = false ->
  parse_quiz json_loads (Some content)
  = Raise (Exception
             ("Failed to generate quiz: "
              ++ (if PyStr.truthy content then "No JSON found in response"
                  else "No content received from AI")))
  /\
  parse_pairs json_loads (Some content)
  = Raise (Exception
             ("Failed to generate matching pairs: "
              ++ (if PyStr.truthy content then "No JSON found in response"
                  else "No content received from AI"))).
Proof.
  intros H. split.
  - now apply parse_quiz_no_json.
  - now apply parse_pairs_no_json.
Qed.

Lemma not_decode_error (e : exn) :
  cls e <> JSONDecodeError -> is_json_decode_error (cls e) = false.
Proof. destruct (cls e); simpl; congruence. Qed.

(** C2 (amended). When the raw output has an opening and a closing
    brace and the decoder raises its decode error on the text from the
    first opening brace to the last closing brace, the quiz parser
    returns exactly the list of the one fallback question (its text,
    the four options "Topic A" to "Topic D", the answer "Topic A") and
    the pairs parser exactly the list of the one fallback pair ("Key
    Concept", "An important idea from the video"): no exception, no
    empty sequence. When the decoder fails on that text with an
    exception of another class, the parser fails with "Failed to
    generate quiz: " (respectively "Failed to generate matching
    pairs: ") followed by the message of that exception. *)
Theorem decode_error_gives_fallback (content : string) (e : exn) :
  PyStr.contains "{" content = true ->
  PyStr.contains "}" content = true ->
  json_loads (json_payload content) = Raise e ->
  (cls e = JSONDecodeError ->
   parse_quiz json_loads (Some content)
   = Return
       (JArray
          [ JObject
              [ ("question",
                 JString "What is the main topic discussed in the video?");
                ("options",
                 JArray [ JString "Topic A"; JString "Topic B";
                          JString "Topic C"; JString "Topic D" ]);
                ("answer", JString "Topic A") ] ]) /\
   parse_pairs json_loads (Some content)
   = Return
       (JArray
          [ JObject
              [ ("term", JString "Key Concept");
                ("definition", JString "An important idea from the video") ] ]))
  /\
  (cls e <> JSONDecodeError ->
   parse_quiz json_loads (Some content)
   = Raise (Exception ("Failed to generate quiz: " ++ str e)) /\
   parse_pairs json_loads (Some content)
   = Raise (Exception ("Failed to generate matching pairs: " ++ str e))).
Proof.
  intros Ho Hc Hd.
  rewrite (parse_quiz_payload content Ho Hc), (parse_pairs_payload content Ho Hc).
  rewrite Hd. split; intros He.
  - simpl. rewrite He. split; reflexivity.
  - simpl. rewrite (not_decode_error e He). split; reflexivity.
Qed.

(** C3. When the text from the first opening brace to the last closing
    brace decodes as an object without the field [questions]
    (respectively [pairs]), the parser returns the empty sequence: not
    the fallback, and no exception. *)
Theorem missing_field_gives_empty (content : string)
    (d : list (string * json)) :
  PyStr.contains "{" content = true ->
  PyStr.contains "}" content = true ->
  json_loads (json_payload content) = Return (JObject d) ->
  (assoc "questions" d = None ->
   parse_quiz json_loads (Some content) = Return (JArray []) /\
   parse_quiz json_loads (Some content) <> Return fallback_questions) /\
  (assoc "pairs" d = None ->
   parse_pairs json_loads (Some content) = Return (JArray []) /\
   parse_pairs json_loads (Some content) <> Return fallback_pairs).
Proof.
  intros Ho Hc Hd. split; intros Hn.
  - rewrite parse_quiz_payload by assumption.
    rewrite Hd. simpl. unfold get_default. rewrite Hn.
    split; [reflexivity | discriminate].
  - rewrite parse_pairs_payload by assumption.
    rewrite Hd. simpl. unfold get_default. rewrite Hn.
    split; [reflexivity | discriminate].
Qed.

(** C9 (amended). The question of the fallback has exactly four option
    strings and an answer that is one of them. A decoded payload is not
    checked: when the text between the braces decodes as an object, the
    quiz parser returns the value of its field [questions] as it was
    decoded (the empty sequence when the field is missing), whatever
    the number of options and whatever the answer. *)
Theorem quiz_questions_unchecked :
  all_quiz_questions fallback_questions = true /\
  forall (content : string) (d : list (string * json)),
    PyStr.contains "{" content = true ->
    PyStr.contains "}" content = true ->
    json_loads (json_payload content) = Return (JObject d) ->
    parse_quiz json_loads (Some content)
    = Return (get_default d "questions" (JArray [])).
Proof.
  split; [reflexivity|].
  intros content d Ho Hc Hd.
  rewrite parse_quiz_payload by assumption.
  rewrite Hd. reflexivity.
Qed.

End ParserFacts.

(* ================================================================= *)
(** ** Joining and splitting *)

Section JoinFacts.

Variable c : ascii.

Lemma split_no_separator (x : string) :
  PyStr.contains c x = false -> PyStr.split c x = [x].
Proof.
  induction x as [|a x IH]; simpl; [reflexivity|].
  destruct (Ascii.eqb a c); simpl; [discriminate|].
  intros H. now rewrite (IH H).
Qed.

Lemma split_append (x s : string) :
  PyStr.contains c x = false ->
  PyStr.split c (x ++ String c s) = x :: PyStr.split c s.
Proof.
  induction x as [|a x IH]; simpl.
  - intros _. now rewrite Ascii.eqb_refl.
  - destruct (Ascii.eqb a c); simpl; [discriminate|].
    intros H. now rewrite (IH H).
Qed.

(** Splitting the joined text at the separator gives the parts back, in
    their order, when no part contains the separator. *)
Lemma split_join (parts : list string) :
  parts <> [] ->
  forallb (fun x => negb (PyStr.contains c x)) parts = true ->
  PyStr.split c (PyStr.join (String c "") parts) = parts.
Proof.
  induction parts as [|x rest IH]; [congruence|].
  intros _ H. simpl in H. apply andb_true_iff in H. destruct H as [Hx Hr].
  apply negb_true_iff in Hx.
  destruct rest as [|y rest].
  - simpl. now apply split_no_separator.
  - change (PyStr.join (String c "") (x :: y :: rest))
      with (x ++ String c (PyStr.join (String c "") (y :: rest))).
    rewrite split_append by assumption.
    f_equal. apply IH; [discriminate | assumption].
Qed.

End JoinFacts.

Lemma join_concat (sep : string) (parts : list string) :
  PyStr.join sep parts = String.concat sep parts.
Proof.
  induction parts as [|x rest IH]; [reflexivity|].
  destruct rest as [|y rest]; [reflexivity|].
  change (PyStr.join sep (x :: y :: rest))
    with (x ++ sep ++ PyStr.join sep (y :: rest)).
  now rewrite IH.
Qed.

(* ================================================================= *)
(** ** The transcript fetcher *)

Section TranscriptFacts.

Variable list_transcripts : string -> result TranscriptList.

Lemma transcript_after_listing (video_id : string) (tl : TranscriptList)
    (t : Transcript) :
  list_transcripts video_id = Return tl ->
  choose_track tl = Return t ->
  get_youtube_transcript list_transcripts video_id
  = match fetch t with
    | Return frs => Return (PyStr.join " " (map text frs))
    | Raise e =>
        if is_transcript_unavailable (cls e)
        then Raise (Exception "No transcript available for this video.")
        else Raise (Exception ("Failed to get transcript: " ++ str e))
    end.
Proof.
  intros Hl Hc. unfold get_youtube_transcript.
  rewrite Hl. simpl. rewrite Hc. simpl.
  destruct (fetch t); reflexivity.
Qed.

(** C4 (amended). When the listing of the tracks, or the fetch of the
    chosen track, raises one of the three conditions "transcripts
    disabled", "no transcript found" or "video unavailable",
    [get_youtube_transcript] fails with the one message "No transcript
    available for this video." (full stop included); any other
    exception of these two calls makes it fail with "Failed to get
    transcript: " followed by the message of that exception. An
    exception raised by the search for the English track is absorbed:
    the first track listed is used instead. *)
Theorem transcript_failure_mapping (video_id : string) (e : exn) :
  provider_failure list_transcripts video_id e ->
  get_youtube_transcript list_transcripts video_id
  = Raise (Exception
             (if is_transcript_unavailable (cls e)
              then "No transcript available for this video."
              else "Failed to get transcript: " ++ str e))
  /\
  forall (tl : TranscriptList) (e' : exn),
    find_transcript tl ["en"] = Raise e' ->
    choose_track tl = first_item (tracks tl).
Proof.
  intros H. split.
  - destruct H as [H | [tl [t [Hl [Hc Hf]]]]].
    + unfold get_youtube_transcript. rewrite H. simpl.
      destruct (is_transcript_unavailable (cls e)); reflexivity.
    + rewrite (transcript_after_listing video_id tl t Hl Hc), Hf.
      destruct (is_transcript_unavailable (cls e)); reflexivity.
  - intros tl e' H'. unfold choose_track. now rewrite H'.
Qed.

(** C7. The transcript is the texts of the fragments of the chosen
    track, in the order the provider gave them, joined by one space
    each; when no text contains a space, splitting the transcript at
    the spaces gives the texts back. *)
Theorem transcript_is_space_joined (video_id : string) (tl : TranscriptList)
    (t : Transcript) (frs : list Fragment) :
  list_transcripts video_id = Return tl ->
  choose_track tl = Return t ->
  fetch t = Return frs ->
  get_youtube_transcript list_transcripts video_id
  = Return (PyStr.join " " (map text frs))
  /\
  (frs <> [] ->
   forallb (fun x => negb (PyStr.contains " " x)) (map text frs) = true ->
   PyStr.split " " (PyStr.join " " (map text frs)) = map text frs).
Proof.
  intros Hl Hc Hf. split.
  - now rewrite (transcript_after_listing video_id tl t Hl Hc), Hf.
  - intros Hne Hsp. apply split_join; [|assumption].
    destruct frs; [congruence | discriminate].
Qed.

End TranscriptFacts.

(* ================================================================= *)
(** ** The prompt of the summary *)

Section SummaryFacts.

Variable list_transcripts : string -> result TranscriptList.
Variable chat_completion : chat_request -> result (option string).
Variable json_loads : string -> result json.
Variable OPENAI_MODEL : option string.

Lemma slice_4000_length (transcript : string) :
  Z.of_nat (String.length (PyStr.slice transcript 0 4000))
  = Z.min 4000 (Z.of_nat (String.length transcript)).
Proof.
  rewrite slice_from_start by lia. rewrite substring_length. lia.
Qed.

Lemma slice_4000_prefix (transcript : string) :
  exists rest, transcript = PyStr.slice transcript 0 4000 ++ rest.
Proof.
  rewrite slice_from_start by lia. apply substring_prefix.
Qed.

Lemma slice_4000_idempotent (transcript : string) :
  PyStr.slice (PyStr.slice transcript 0 4000) 0 4000
  = PyStr.slice transcript 0 4000.
Proof.
  rewrite !slice_from_start by lia.
  apply substring_all. rewrite substring_length. lia.
Qed.

(** The instruction sits in the prompt as it is written. *)
Lemma template_contains_instruction (instruction embedded : string) :
  exists before after,
    summary_template instruction embedded = before ++ instruction ++ after.
Proof.
  unfold summary_template.
  eexists (nl ++ indent8
           ++ "Summarize the following YouTube video transcript "), _.
  rewrite !append_assoc. reflexivity.
Qed.

Lemma instruction_is_known (length : string) :
  In (get_default length_instructions length "in 1-2 paragraphs")
     [ "in 2-3 sentences"; "in 1-2 paragraphs";
       "in 3-4 paragraphs with detailed analysis" ].
Proof.
  clear list_transcripts chat_completion json_loads OPENAI_MODEL.
  unfold get_default, length_instructions. cbn [assoc].
  destruct (String.eqb "short" length); [simpl; tauto|].
  destruct (String.eqb "medium" length); [simpl; tauto|].
  destruct (String.eqb "long" length); simpl; tauto.
Qed.

(** C8. The prompt [generate_summary_with_ai] sends holds the
    transcript cut to its first 4000 characters. The one request that
    is sent carries one message, whose text is: the opening line with
    one of the three length instructions, the line "Transcript:", then
    a piece [embedded] of the transcript, then the rest of the
    template. [embedded] is a prefix of the transcript of length
    [min 4000 len] (so exactly its first 4000 characters when the
    transcript is longer), the prompt is as long as the fixed text, the
    instruction and [embedded] together, and nothing behind the first
    4000 characters has any influence on what the function does. *)
Theorem summary_prompt_keeps_first_4000 (transcript length : string)
    (log : llm_log) :
  exists instruction embedded rest prompt,
    snd (generate_summary_with_ai chat_completion OPENAI_MODEL
           transcript length log)
    = (log ++ [ mkChat (match OPENAI_MODEL with
                        | Some m => m
                        | None => "gpt-3.5-turbo"
                        end)
                  [ ("user", prompt) ] 500 (7 # 10) ])%list
    /\ prompt
       = String "010"
           "        Summarize the following YouTube video transcript "
         ++ instruction
         ++ "." ++ String "010" "        "
         ++ String "010" "        Transcript:"
         ++ String "010" "        "
         ++ embedded
         ++ "  # Limit to first 4000 characters to avoid token limits"
         ++ String "010" "        "
         ++ String "010"
              "        Please provide a comprehensive summary that captures the main points, key insights, and important details."
         ++ String "010" "        "
    /\ In instruction
         [ "in 2-3 sentences"; "in 1-2 paragraphs";
           "in 3-4 paragraphs with detailed analysis" ]
    /\ transcript = embedded ++ rest
    /\ Z.of_nat (String.length embedded)
       = Z.min 4000 (Z.of_nat (String.length transcript))
    /\ Z.of_nat (String.length prompt)
       = 286 + Z.of_nat (String.length instruction)
         + Z.min 4000 (Z.of_nat (String.length transcript))
    /\ generate_summary_with_ai chat_completion OPENAI_MODEL
         transcript length log
       = generate_summary_with_ai chat_completion OPENAI_MODEL
           embedded length log.
Proof.
  clear list_transcripts json_loads.
  destruct (slice_4000_prefix transcript) as [rest Hrest].
  exists (get_default length_instructions length "in 1-2 paragraphs"),
    (PyStr.slice transcript 0 4000), rest,
    (summary_prompt transcript length).
  split; [reflexivity|].
  split; [reflexivity|].
  split; [apply instruction_is_known|].
  split; [exact Hrest|].
  split; [apply slice_4000_length|].
  split.
  - unfold summary_prompt, summary_template, nl, indent8.
    rewrite !length_append. simpl String.length.
    rewrite <- slice_4000_length.
    set (a := String.length
                (get_default length_instructions length "in 1-2 paragraphs")).
    set (b := String.length (PyStr.slice transcript 0 4000)).
    lia.
  - unfold generate_summary_with_ai, summary_request, summary_prompt.
    now rewrite slice_4000_idempotent.
Qed.

(** C10. Every chat request the handler of [/api/summarize] sends is
    the request of [generate_summary_with_ai] at the default length
    "medium": its prompt is the template with the instruction "in 1-2
    paragraphs", which the prompt therefore contains. The two other
    POST handlers send the request of the quiz or of the pairs only,
    so no handler reaches the instructions of "short" and "long". *)
Theorem summarize_uses_medium_length (data : summarize_body)
    (body : summary_body) (log : llm_log) :
  (exists new,
     snd (summarize list_transcripts chat_completion OPENAI_MODEL data log)
     = (log ++ new)%list /\
     Forall
       (fun r =>
          exists transcript,
            r = summary_request OPENAI_MODEL transcript "medium" /\
            messages r
            = [ ("user",
                 summary_template "in 1-2 paragraphs"
                   (PyStr.slice transcript 0 4000)) ] /\
            exists before after,
              messages r
              = [ ("user", before ++ "in 1-2 paragraphs" ++ after) ])
       new)
  /\
  (exists new,
     snd (generate_quiz chat_completion json_loads OPENAI_MODEL body log)
     = (log ++ new)%list /\
     Forall (fun r => exists s, r = quiz_request OPENAI_MODEL s) new)
  /\
  (exists new,
     snd (generate_matching_pairs chat_completion json_loads OPENAI_MODEL
            body log)
     = (log ++ new)%list /\
     Forall (fun r => exists s, r = pairs_request OPENAI_MODEL s) new).
Proof.
  assert (Hnil : forall l : llm_log, l = (l ++ [])%list)
    by (intros; now rewrite app_nil_r).
  split; [|split].
  - unfold summarize.
    destruct (url data) as [u|]; [|exists []; split; [apply Hnil | constructor]].
    destruct (PyStr.truthy u); simpl negb; cbv iota;
      [|exists []; split; [apply Hnil | constructor]].
    destruct (extract_video_id u) as [video_id|];
      [|exists []; split; [apply Hnil | constructor]].
    destruct (PyStr.truthy video_id); simpl negb; cbv iota;
      [|exists []; split; [apply Hnil | constructor]].
    destruct (get_youtube_transcript list_transcripts video_id)
      as [e | transcript]; [exists []; split; [apply Hnil | constructor]|].
    exists [ summary_request OPENAI_MODEL transcript "medium" ].
    split.
    + unfold generate_summary_with_ai, default_length.
      destruct (try_except _ _ _); reflexivity.
    + constructor; [|constructor].
      exists transcript. split; [reflexivity|]. split; [reflexivity|].
      destruct (template_contains_instruction "in 1-2 paragraphs"
                  (PyStr.slice transcript 0 4000)) as [b [a E]].
      exists b, a. rewrite <- E. reflexivity.
  - unfold generate_quiz.
    destruct (summary body) as [s|]; [|exists []; split; [apply Hnil | constructor]].
    destruct (PyStr.truthy s); simpl negb; cbv iota;
      [|exists []; split; [apply Hnil | constructor]].
    exists [ quiz_request OPENAI_MODEL s ]. split.
    + unfold generate_quiz_with_ai.
      destruct (match chat_completion _ with Raise _ => _ | Return _ => _ end);
        reflexivity.
    + constructor; [|constructor]. now exists s.
  - unfold generate_matching_pairs.
    destruct (summary body) as [s|]; [|exists []; split; [apply Hnil | constructor]].
    destruct (PyStr.truthy s); simpl negb; cbv iota;
      [|exists []; split; [apply Hnil | constructor]].
    exists [ pairs_request OPENAI_MODEL s ]. split.
    + unfold generate_matching_pairs_with_ai.
      destruct (match chat_completion _ with Raise _ => _ | Return _ => _ end);
        reflexivity.
    + constructor; [|constructor]. now exists s.
Qed.

End SummaryFacts.

(* ================================================================= *)
(** ** The URL resolver *)

Section MatcherFacts.

Lemma literal_append (p r : string) : Re.literal p (p ++ r) = Some r.
Proof.
  induction p as [|a p IH]; simpl; [reflexivity|].
  now rewrite Ascii.eqb_refl.
Qed.

Lemma literal_inv (p s r : string) : Re.literal p s = Some r -> s = p ++ r.
Proof.
  revert s. induction p as [|a p IH]; simpl; intros s H.
  - now injection H.
  - destruct s as [|b s]; [discriminate|].
    destruct (Ascii.eqb_spec a b); [|discriminate].
    subst. f_equal. now apply IH.
Qed.

Lemma literal_startswith (p s : string) :
  PyStr.startswith p s = false -> Re.literal p s = None.
Proof.
  revert s. induction p as [|a p IH]; simpl; intros s H; [discriminate|].
  destruct s as [|b s]; [reflexivity|].
  destruct (Ascii.eqb a b); [|reflexivity].
  now apply IH.
Qed.

Lemma group1_inv (s g : string) :
  Re.group1 s = Some g ->
  g = Re.take_id s /\
  exists c rest, s = String c rest /\ Re.id_char c = true.
Proof.
  unfold Re.group1. destruct s as [|a s]; simpl; [discriminate|].
  destruct (Re.id_char a) eqn:E; [|discriminate].
  intros H. injection H as <-. split; [reflexivity|]. now exists a, s.
Qed.

Lemma group1_head (c : ascii) (rest : string) :
  Re.id_char c = true ->
  Re.group1 (String c rest) = Some (String c (Re.take_id rest)).
Proof. intros H. unfold Re.group1. simpl. now rewrite H. Qed.

Lemma take_id_append (id rest : string) :
  PyStr.all_chars Re.id_char id = true -> ends_id rest = true ->
  Re.take_id (id ++ rest) = id.
Proof.
  intros Hid Hr. induction id as [|a id IH]; simpl.
  - destruct rest as [|b rest]; [reflexivity|].
    simpl in Hr. apply negb_true_iff in Hr. simpl. now rewrite Hr.
  - simpl in Hid. apply andb_true_iff in Hid. destruct Hid as [Ha Hid].
    rewrite Ha. now rewrite (IH Hid).
Qed.

(** The group captures the whole identifier. *)
Lemma group1_identifier (id rest : string) :
  id <> "" ->
  PyStr.all_chars Re.id_char id = true -> ends_id rest = true ->
  Re.group1 (id ++ rest) = Some id.
Proof.
  intros Hne Hid Hr. unfold Re.group1.
  rewrite (take_id_append id rest Hid Hr).
  destruct id; [congruence | reflexivity].
Qed.

Lemma alternatives_inv (ps : list string) (s g : string) :
  Re.alternatives ps s = Some g ->
  exists p c rest,
    In p ps /\ Re.id_char c = true /\ s = p ++ String c rest.
Proof.
  induction ps as [|p ps IH]; simpl; [discriminate|].
  destruct (Re.literal p s) as [r|] eqn:El.
  - destruct (Re.group1 r) as [g'|] eqn:Eg.
    + intros _. apply literal_inv in El.
      destruct (group1_inv r g' Eg) as [_ [c [rest [Er Hc]]]].
      exists p, c, rest. subst. auto.
    + intros H. destruct (IH H) as [p' [c [rest [Hin H']]]].
      exists p', c, rest. auto.
  - intros H. destruct (IH H) as [p' [c [rest [Hin H']]]].
    exists p', c, rest. auto.
Qed.

Lemma alternatives_complete (ps : list string) (p : string) (c : ascii)
    (rest : string) :
  In p ps -> Re.id_char c = true ->
  exists g, Re.alternatives ps (p ++ String c rest) = Some g.
Proof.
  intros Hin Hc. induction ps as [|p' ps IH]; [contradiction|].
  simpl. destruct Hin as [-> | Hin].
  - rewrite literal_append, (group1_head c rest Hc). eauto.
  - destruct (Re.literal p' (p ++ String c rest)) as [r|]; [|auto].
    destruct (Re.group1 r); eauto.
Qed.

Lemma search_inv (m : string -> option string) (s g : string) :
  Re.scan m s = Some g -> exists pre t, s = pre ++ t /\ m t = Some g.
Proof.
  induction s as [|a s IH]; simpl.
  - destruct (m "") eqn:E; [|discriminate].
    intros H. injection H as <-. now exists "", "".
  - destruct (m (String a s)) eqn:E.
    + intros H. injection H as <-. now exists "", (String a s).
    + intros H. destruct (IH H) as [pre [t [Es Hm]]].
      exists (String a pre), t. subst. auto.
Qed.

Lemma search_here (m : string -> option string) (s g : string) :
  m s = Some g -> Re.scan m s = Some g.
Proof. intros H. destruct s; simpl; now rewrite H. Qed.

Lemma search_complete (m : string -> option string) (pre t g : string) :
  m t = Some g -> exists g', Re.scan m (pre ++ t) = Some g'.
Proof.
  intros H. induction pre as [|a pre [g' IH]]; simpl.
  - exists g. now apply search_here.
  - destruct (m (String a (pre ++ t))); eauto.
Qed.

(** A matcher that needs a given first character finds nothing in a
    text without it. *)
Lemma search_skip (m : string -> option string) (c : ascii)
    (pre s : string) :
  (forall a t, Ascii.eqb a c = false -> m (String a t) = None) ->
  PyStr.contains c pre = false ->
  Re.scan m (pre ++ s) = Re.scan m s.
Proof.
  intros Hm. induction pre as [|a pre IH]; simpl; [reflexivity|].
  destruct (Ascii.eqb a c) eqn:E; simpl; [discriminate|].
  intros H. rewrite (Hm a _ E). now apply IH.
Qed.

Lemma literal_head_mismatch (a b : ascii) (p s : string) :
  Ascii.eqb b a = false -> Re.literal (String a p) (String b s) = None.
Proof. intros H. simpl. rewrite Ascii.eqb_sym. now rewrite H. Qed.

Lemma match1_needs_y (a : ascii) (t : string) :
  Ascii.eqb a "y" = false -> Re.match1 (String a t) = None.
Proof.
  intros H. unfold Re.match1, Re.prefixes1, Re.alternatives.
  now rewrite !(literal_head_mismatch "y" a _ t H).
Qed.

Lemma match2_needs_y (a : ascii) (t : string) :
  Ascii.eqb a "y" = false -> Re.match2 (String a t) = None.
Proof.
  intros H. unfold Re.match2.
  now rewrite (literal_head_mismatch "y" a _ t H).
Qed.

Lemma star_v_inv (s g : string) :
  Re.star_v s = Some g ->
  exists mid c rest,
    PyStr.all_chars Re.dot mid = true /\ Re.id_char c = true /\
    s = mid ++ "v=" ++ String c rest.
Proof.
  assert (Here : forall s g,
             match Re.literal "v=" s with
             | Some rest => Re.group1 rest
             | None => None
             end = Some g ->
             exists c rest, Re.id_char c = true /\ s = "v=" ++ String c rest).
  { clear. intros s g H.
    destruct (Re.literal "v=" s) as [r|] eqn:El; [|discriminate].
    apply literal_inv in El.
    destruct (group1_inv r g H) as [_ [c [rest [Er Hc]]]].
    exists c, rest. subst. auto. }
  induction s as [|a s IH].
  - simpl. discriminate.
  - intros H.
    assert (Hcases :
              (Re.dot a = true /\ Re.star_v s = Some g) \/
              match Re.literal "v=" (String a s) with
              | Some rest => Re.group1 rest
              | None => None
              end = Some g).
    { simpl in H. destruct (Re.dot a).
      - destruct (Re.star_v s) as [g'|].
        + left. split; [reflexivity | assumption].
        + right. exact H.
      - right. exact H. }
    destruct Hcases as [[Hd Hs] | Hh].
    + destruct (IH Hs) as [mid [c [rest [Hm [Hc E]]]]].
      exists (String a mid), c, rest. simpl. rewrite Hd, Hm. subst. auto.
    + destruct (Here _ _ Hh) as [c [rest [Hc E]]].
      exists "", c, rest. auto.
Qed.

Lemma star_v_cons (a : ascii) (s : string) :
  Re.star_v (String a s)
  = if Re.dot a
    then match Re.star_v s with
         | Some g => Some g
         | None =>
             match Re.literal "v=" (String a s) with
             | Some r => Re.group1 r
             | None => None
             end
         end
    else match Re.literal "v=" (String a s) with
         | Some r => Re.group1 r
         | None => None
         end.
Proof. reflexivity. Qed.

Lemma star_v_complete (mid : string) (c : ascii) (rest : string) :
  PyStr.all_chars Re.dot mid = true -> Re.id_char c = true ->
  exists g, Re.star_v (mid ++ "v=" ++ String c rest) = Some g.
Proof.
  intros Hm Hc. induction mid as [|a mid IH].
  - change ("" ++ "v=" ++ String c rest)
      with (String "v" ("=" ++ String c rest)).
    rewrite star_v_cons. change (Re.dot "v") with true. cbv iota.
    destruct (Re.star_v ("=" ++ String c rest)); [eauto|].
    change (String "v" ("=" ++ String c rest)) with ("v=" ++ String c rest).
    rewrite literal_append, (group1_head c rest Hc). eauto.
  - simpl in Hm. apply andb_true_iff in Hm. destruct Hm as [Ha Hm].
    destruct (IH Hm) as [g Hg].
    exists g.
    change (String a mid ++ "v=" ++ String c rest)
      with (String a (mid ++ "v=" ++ String c rest)).
    now rewrite star_v_cons, Ha, Hg.
Qed.

Lemma star_v_absent (s : string) :
  PyStr.occurs "v=" s = false -> Re.star_v s = None.
Proof.
  induction s as [|a s IH]; [reflexivity|].
  intros H.
  change (PyStr.occurs "v=" (String a s))
    with (PyStr.startswith "v=" (String a s) || PyStr.occurs "v=" s) in H.
  apply orb_false_iff in H. destruct H as [Hs Ho].
  rewrite star_v_cons, (IH Ho), (literal_startswith _ _ Hs).
  now destruct (Re.dot a).
Qed.

(** The greedy star stops at the last parameter [v=] of the line. *)
Lemma star_v_last (query id rest : string) :
  id <> "" ->
  PyStr.all_chars Re.id_char id = true -> ends_id rest = true ->
  PyStr.all_chars Re.dot query = true ->
  PyStr.occurs "v=" (id ++ rest) = false ->
  Re.star_v (query ++ "v=" ++ id ++ rest) = Some id.
Proof.
  intros Hne Hid Hr Hq Ho. induction query as [|a query IH].
  - change ("" ++ "v=" ++ id ++ rest) with (String "v" ("=" ++ id ++ rest)).
    rewrite star_v_cons. change (Re.dot "v") with true. cbv iota.
    change ("=" ++ id ++ rest) with (String "=" (id ++ rest)).
    rewrite star_v_cons. change (Re.dot "=") with true. cbv iota.
    rewrite (star_v_absent _ Ho).
    change (Re.literal "v=" (String "=" (id ++ rest))) with (@None string).
    cbv iota.
    change (String "v" (String "=" (id ++ rest))) with ("v=" ++ (id ++ rest)).
    rewrite literal_append. now apply group1_identifier.
  - simpl in Hq. apply andb_true_iff in Hq. destruct Hq as [Ha Hq].
    change (String a query ++ "v=" ++ id ++ rest)
      with (String a (query ++ "v=" ++ id ++ rest)).
    now rewrite star_v_cons, Ha, (IH Hq).
Qed.

End MatcherFacts.

Section ShapeFacts.

Lemma search_match1_shape (url g : string) :
  Re.scan Re.match1 url = Some g -> direct_shape url.
Proof.
  intros H. destruct (search_inv _ _ _ H) as [pre [t [E Hm]]].
  destruct (alternatives_inv _ _ _ Hm) as [p [c [rest [Hin [Hc Et]]]]].
  exists pre, c, rest. split; [assumption|]. subst url t.
  destruct Hin as [<- | [<- | [<- | []]]]; auto.
Qed.

Lemma direct_shape_found (url : string) :
  direct_shape url -> exists g, Re.scan Re.match1 url = Some g.
Proof.
  intros [pre [c [rest [Hc H]]]].
  assert (Hall : forall p, In p Re.prefixes1 ->
                   exists g, Re.scan Re.match1 (pre ++ p ++ String c rest)
                             = Some g).
  { intros p Hin.
    destruct (alternatives_complete Re.prefixes1 p c rest Hin Hc) as [g Hg].
    now apply (search_complete Re.match1 pre _ g). }
  destruct H as [-> | [-> | ->]]; apply Hall; simpl; auto.
Qed.

Lemma search_match2_shape (url g : string) :
  Re.scan Re.match2 url = Some g -> query_shape url.
Proof.
  intros H. destruct (search_inv _ _ _ H) as [pre [t [E Hm]]].
  unfold Re.match2 in Hm.
  destruct (Re.literal "youtube.com/watch?" t) as [r|] eqn:El; [|discriminate].
  apply literal_inv in El.
  destruct (star_v_inv _ _ Hm) as [mid [c [rest [Hd [Hc Er]]]]].
  exists pre, mid, c, rest. subst. auto.
Qed.

Lemma query_shape_found (url : string) :
  query_shape url -> exists g, Re.scan Re.match2 url = Some g.
Proof.
  intros [pre [mid [c [rest [Hd [Hc ->]]]]]].
  destruct (star_v_complete mid c rest Hd Hc) as [g Hg].
  apply (search_complete Re.match2 pre _ g).
  unfold Re.match2. now rewrite literal_append.
Qed.

(** When the continuation cannot fail, the greedy plus of the
    identifier characters stops behind the longest run. *)
Lemma star_id_total {A : Type} (s : string) (k : string -> option A) :
  (forall x, k x <> None) ->
  exists s', Re.star Re.id_char s k = k s' /\
             (String.length s' <= String.length s)%nat /\
             Re.consumed s s' = Re.take_id s.
Proof.
  intros Hk. induction s as [|a s [s' [E [Hl Hc]]]].
  - exists "". simpl. auto.
  - simpl Re.star. simpl Re.take_id. destruct (Re.id_char a) eqn:Ea.
    + exists s'. rewrite E. split.
      * destruct (k s') eqn:Ek; [reflexivity | now apply Hk in Ek].
      * simpl String.length. split; [lia|].
        unfold Re.consumed in *. simpl String.length.
        replace (S (String.length s) - String.length s')%nat
          with (S (String.length s - String.length s')) by lia.
        simpl. now rewrite Hc.
    + exists (String a s). split; [reflexivity|]. split; [lia|].
      unfold Re.consumed. rewrite Nat.sub_diag. reflexivity.
Qed.

(** The group at the end of both patterns captures the longest run of
    identifier characters, which must not be empty. *)
Lemma run_group_plus (s : string) (g : option string) :
  Re.run (Re.Group (Re.Plus Re.id_char)) s g (fun _ g' => Some g')
  = option_map Some (Re.group1 s).
Proof.
  unfold Re.group1. destruct s as [|a s]; [reflexivity|].
  simpl Re.run. simpl Re.take_id.
  destruct (Re.id_char a) eqn:Ea; [|reflexivity].
  destruct (star_id_total s
              (fun s'' => Some (Some (Re.consumed (String a s) s''))))
    as [s' [E [Hl Hc]]]; [discriminate|].
  rewrite E. simpl. do 2 f_equal.
  unfold Re.consumed in *. simpl String.length.
  replace (S (String.length s) - String.length s')%nat
    with (S (String.length s - String.length s')) by lia.
  simpl. now rewrite Hc.
Qed.

Lemma run_lit {A : Type} (text s : string) (g : option string)
    (k : string -> option string -> option A) :
  Re.run (Re.Lit text) s g k
  = match Re.literal text s with
    | Some s' => k s' g
    | None => None
    end.
Proof. reflexivity. Qed.

Lemma run_alt {A : Type} (r1 r2 : Re.regex) (s : string) (g : option string)
    (k : string -> option string -> option A) :
  Re.run (Re.Alt r1 r2) s g k
  = match Re.run r1 s g k with
    | Some x => Some x
    | None => Re.run r2 s g k
    end.
Proof. reflexivity. Qed.

Lemma run_seq {A : Type} (r1 r2 : Re.regex) (s : string) (g : option string)
    (k : string -> option string -> option A) :
  Re.run (Re.Seq r1 r2) s g k
  = Re.run r1 s g (fun s' g' => Re.run r2 s' g' k).
Proof. reflexivity. Qed.

Lemma match_at_pattern1 (s : string) :
  Re.match_at Re.pattern1 s = option_map Some (Re.match1 s).
Proof.
  unfold Re.match_at, Re.pattern1, Re.match1, Re.prefixes1, Re.alternatives.
  rewrite run_seq, !run_alt, !run_lit.
  destruct (Re.literal "youtube.com/watch?v=" s) as [r1|];
    destruct (Re.literal "youtu.be/" s) as [r2|];
    destruct (Re.literal "youtube.com/embed/" s) as [r3|];
    rewrite ?run_group_plus;
    repeat match goal with
           | |- context [Re.group1 ?r] => destruct (Re.group1 r)
           end;
    reflexivity.
Qed.

Lemma star_dot_v (s : string) :
  Re.star Re.dot s
    (fun s' =>
       Re.run (Re.Seq (Re.Lit "v=") (Re.Group (Re.Plus Re.id_char))) s' None
         (fun _ g => Some g))
  = option_map Some (Re.star_v s).
Proof.
  set (K := fun s' =>
              Re.run (Re.Seq (Re.Lit "v=") (Re.Group (Re.Plus Re.id_char)))
                s' None (fun _ g => Some g)).
  assert (Here : forall t,
             K t = option_map Some
                     match Re.literal "v=" t with
                     | Some r => Re.group1 r
                     | None => None
                     end).
  { intros t. unfold K. rewrite run_seq, run_lit.
    destruct (Re.literal "v=" t) as [r|]; [|reflexivity].
    apply run_group_plus. }
  induction s as [|a s IH].
  - change (Re.star Re.dot "" K) with (K ""). now rewrite Here.
  - change (Re.star Re.dot (String a s) K)
      with (if Re.dot a
            then match Re.star Re.dot s K with
                 | Some x => Some x
                 | None => K (String a s)
                 end
            else K (String a s)).
    rewrite IH, Here, star_v_cons.
    destruct (Re.dot a); [|reflexivity].
    now destruct (Re.star_v s).
Qed.

Lemma match_at_pattern2 (s : string) :
  Re.match_at Re.pattern2 s = option_map Some (Re.match2 s).
Proof.
  unfold Re.match_at, Re.pattern2, Re.match2.
  rewrite run_seq, run_lit.
  destruct (Re.literal "youtube.com/watch?" s) as [r|]; [|reflexivity].
  rewrite run_seq. apply star_dot_v.
Qed.

Lemma search_scan (r : Re.regex) (m : string -> option string) :
  (forall s, Re.match_at r s = option_map Some (m s)) ->
  forall s, Re.search r s = option_map Some (Re.scan m s).
Proof.
  intros H s. induction s as [|a s IH]; simpl; rewrite H.
  - now destruct (m "").
  - destruct (m (String a s)); [reflexivity | exact IH].
Qed.

(** The resolver in terms of the closed forms of its patterns. *)
Lemma extract_video_id_unfold (url : string) :
  extract_video_id url
  = match Re.scan Re.match1 url with
    | Some g => Some g
    | None => Re.scan Re.match2 url
    end.
Proof.
  unfold extract_video_id, patterns, first_match.
  rewrite (search_scan _ _ match_at_pattern1).
  rewrite (search_scan _ _ match_at_pattern2).
  destruct (Re.scan Re.match1 url); [reflexivity|].
  now destruct (Re.scan Re.match2 url).
Qed.

(** The resolver finds nothing exactly in the strings that contain no
    recognised shape. *)
Lemma extract_none_iff (url : string) :
  extract_video_id url = None <-> ~ recognized_shape url.
Proof.
  rewrite extract_video_id_unfold. split.
  - intros H [Hs | Hs].
    + destruct (direct_shape_found url Hs) as [g Hg].
      rewrite Hg in H. discriminate.
    + destruct (query_shape_found url Hs) as [g Hg].
      destruct (Re.scan Re.match1 url); [discriminate|].
      rewrite Hg in H. discriminate.
  - intros H.
    destruct (Re.scan Re.match1 url) as [g|] eqn:E1.
    + exfalso. apply H. left. now apply (search_match1_shape url g).
    + destruct (Re.scan Re.match2 url) as [g|] eqn:E2; [|reflexivity].
      exfalso. apply H. right. now apply (search_match2_shape url g).
Qed.

(** What the resolver finds is never empty. *)
Lemma extract_nonempty (url g : string) :
  extract_video_id url = Some g -> PyStr.truthy g = true.
Proof.
  rewrite extract_video_id_unfold.
  assert (Hg : forall r, Re.group1 r = Some g -> PyStr.truthy g = true).
  { intros r Hr. destruct (group1_inv r g Hr) as [-> [c [rest [-> Hc]]]].
    simpl. now rewrite Hc. }
  assert (Halt : forall ps t, Re.alternatives ps t = Some g ->
                   PyStr.truthy g = true).
  { induction ps as [|p ps IH]; simpl; intros t; [discriminate|].
    destruct (Re.literal p t) as [r|]; [|apply IH].
    destruct (Re.group1 r) as [g'|] eqn:Eg; [|apply IH].
    intros H. injection H as ->. now apply (Hg r). }
  assert (Hstar : forall t, Re.star_v t = Some g -> PyStr.truthy g = true).
  { induction t as [|a t IH]; [discriminate|].
    rewrite star_v_cons.
    destruct (Re.literal "v=" (String a t)) as [r|].
    - destruct (Re.dot a); [destruct (Re.star_v t) as [g'|]|].
      + intros H. apply IH. now rewrite H.
      + apply Hg.
      + apply Hg.
    - destruct (Re.dot a); [destruct (Re.star_v t) as [g'|]|];
        try discriminate.
      intros H. apply IH. now rewrite H. }
  destruct (Re.scan Re.match1 url) as [g1|] eqn:E1.
  - intros H. injection H as ->.
    destruct (search_inv _ _ _ E1) as [pre [t [_ Hm]]].
    now apply (Halt Re.prefixes1 t).
  - intros E2. destruct (search_inv _ _ _ E2) as [pre [t [_ Hm]]].
    unfold Re.match2 in Hm.
    destruct (Re.literal "youtube.com/watch?" t) as [r|]; [|discriminate].
    now apply (Hstar r).
Qed.

Lemma search_cons (m : string -> option string) (a : ascii) (s : string) :
  m (String a s) = None -> Re.scan m (String a s) = Re.scan m s.
Proof. intros H. simpl. now rewrite H. Qed.

Lemma no_slash_no_match1 (s : string) :
  PyStr.contains "/" s = false -> Re.scan Re.match1 s = None.
Proof.
  intros H. destruct (Re.scan Re.match1 s) as [g|] eqn:E; [|reflexivity].
  destruct (search_match1_shape s g E) as [pre [c [rest [_ Hs]]]].
  destruct Hs as [-> | [-> | ->]];
    rewrite !contains_append in H;
    apply orb_false_iff in H; destruct H as [_ H];
    apply orb_false_iff in H; destruct H as [H _];
    discriminate.
Qed.

Lemma literal_cons (a b : ascii) (p s : string) :
  Re.literal (String a p) (String b s)
  = if Ascii.eqb a b then Re.literal p s else None.
Proof. reflexivity. Qed.

(** A query that is not empty and does not begin with [v=] keeps the
    first alternative from matching at the watch page. *)
Lemma literal_v_query (query x : string) :
  query <> "" -> PyStr.startswith "v=" query = false ->
  Re.literal "v=" (query ++ "v=" ++ x) = None.
Proof.
  intros Hne Hs. destruct query as [|a query]; [congruence|].
  change (String a query ++ "v=" ++ x) with (String a (query ++ "v=" ++ x)).
  rewrite literal_cons.
  destruct (Ascii.eqb "v" a) eqn:Ea; [|reflexivity].
  destruct query as [|b query]; [reflexivity|].
  change (String b query ++ "v=" ++ x) with (String b (query ++ "v=" ++ x)).
  rewrite literal_cons.
  destruct (Ascii.eqb "=" b) eqn:Eb; [|reflexivity].
  exfalso.
  change (PyStr.startswith "v=" (String a (String b query)))
    with (Ascii.eqb "v" a && (Ascii.eqb "=" b && true)) in Hs.
  rewrite Ea, Eb in Hs. discriminate.
Qed.

Lemma match1_watch (x g : string) :
  Re.group1 x = Some g -> Re.match1 ("youtube.com/watch?v=" ++ x) = Some g.
Proof.
  intros H. unfold Re.match1, Re.prefixes1, Re.alternatives.
  now rewrite literal_append, H.
Qed.

Lemma match1_short (x g : string) :
  Re.group1 x = Some g -> Re.match1 ("youtu.be/" ++ x) = Some g.
Proof.
  intros H. unfold Re.match1, Re.prefixes1, Re.alternatives.
  change (Re.literal "youtube.com/watch?v=" ("youtu.be/" ++ x))
    with (@None string).
  now rewrite literal_append, H.
Qed.

Lemma match1_embed (x g : string) :
  Re.group1 x = Some g -> Re.match1 ("youtube.com/embed/" ++ x) = Some g.
Proof.
  intros H. unfold Re.match1, Re.prefixes1, Re.alternatives.
  change (Re.literal "youtube.com/watch?v=" ("youtube.com/embed/" ++ x))
    with (@None string).
  change (Re.literal "youtu.be/" ("youtube.com/embed/" ++ x))
    with (@None string).
  now rewrite literal_append, H.
Qed.

(** The first pattern does not match at a watch page whose query does
    not begin with [v=]. *)
Lemma match1_watch_query (t : string) :
  Re.literal "v=" t = None ->
  Re.match1 ("youtube.com/watch?" ++ t) = None.
Proof.
  intros H. unfold Re.match1, Re.prefixes1, Re.alternatives.
  change (Re.literal "youtube.com/watch?v=" ("youtube.com/watch?" ++ t))
    with (Re.literal "v=" t).
  rewrite H.
  change (Re.literal "youtu.be/" ("youtube.com/watch?" ++ t))
    with (@None string).
  change (Re.literal "youtube.com/embed/" ("youtube.com/watch?" ++ t))
    with (@None string).
  reflexivity.
Qed.

End ShapeFacts.

(** The matcher on some URLs. *)
Example extract_watch :
  extract_video_id "https://www.youtube.com/watch?v=dQw4w9WgXcQ&t=42s"
  = Some "dQw4w9WgXcQ".
Proof. reflexivity. Qed.

Example extract_short_with_query :
  extract_video_id "https://youtu.be/dQw4w9WgXcQ?t=42" = Some "dQw4w9WgXcQ".
Proof. reflexivity. Qed.

Example extract_embed :
  extract_video_id "https://www.youtube.com/embed/dQw4w9WgXcQ#start"
  = Some "dQw4w9WgXcQ".
Proof. reflexivity. Qed.

Example extract_reordered :
  extract_video_id "https://www.youtube.com/watch?list=PL1&v=dQw4w9WgXcQ&index=2"
  = Some "dQw4w9WgXcQ".
Proof. reflexivity. Qed.

(** The greedy star takes the last [v=] of the line. *)
Example extract_last_parameter :
  extract_video_id "https://www.youtube.com/watch?a=1&v=dQw4w9WgXcQ&tv=3"
  = Some "3".
Proof. reflexivity. Qed.

(** The star does not cross a line feed, and the group needs one
    character. *)
Example extract_nothing :
  extract_video_id ("https://www.youtube.com/watch?a=1" ++ nl ++ "v=abc") = None
  /\ extract_video_id "https://youtu.be/" = None
  /\ extract_video_id "https://www.youtube.com/watch?v=" = None.
Proof. repeat split; reflexivity. Qed.

Section ResolverClaims.

Variable list_transcripts : string -> result TranscriptList.
Variable chat_completion : chat_request -> result (option string).
Variable OPENAI_MODEL : option string.

(** C5 (amended). Let [id] be a non-empty identifier over the alphabet
    of the capture group (any character but [&], line feed, [?] and
    [#]), followed in the URL by nothing or by a character outside that
    alphabet, and let the URL begin with a prefix without the letter
    [y] (such as [https://www.]). For the three shapes [watch?v=<id>],
    [youtu.be/<id>] and [embed/<id>] the resolver returns [id]. For the
    reordered query [watch?<query>v=<id>] it returns [id] when the
    query is not empty, does not begin with [v=] and has no line feed,
    when neither the query nor what follows it contains a slash, and
    when [v=] does not occur again in the identifier or behind it. The
    first pattern has precedence: whatever it captures is the result. *)
Theorem extract_video_id_of_shapes (id pre rest : string) :
  id <> "" ->
  PyStr.all_chars Re.id_char id = true ->
  PyStr.contains "y" pre = false ->
  ends_id rest = true ->
  extract_video_id (pre ++ "youtube.com/watch?v=" ++ id ++ rest) = Some id /\
  extract_video_id (pre ++ "youtu.be/" ++ id ++ rest) = Some id /\
  extract_video_id (pre ++ "youtube.com/embed/" ++ id ++ rest) = Some id /\
  (forall query : string,
     query <> "" ->
     PyStr.startswith "v=" query = false ->
     PyStr.all_chars Re.dot query = true ->
     PyStr.contains "/" (query ++ id ++ rest) = false ->
     PyStr.occurs "v=" (id ++ rest) = false ->
     extract_video_id (pre ++ "youtube.com/watch?" ++ query ++ "v=" ++ id ++ rest)
     = Some id) /\
  (forall (url : string) (m : option string),
     Re.search Re.pattern1 url = Some m -> extract_video_id url = m).
Proof.
  intros Hne Hid Hpre Hr.
  pose proof (group1_identifier id rest Hne Hid Hr) as Hg.
  split; [|split; [|split; [|split]]].
  - rewrite extract_video_id_unfold.
    rewrite (search_skip Re.match1 "y" pre _ match1_needs_y Hpre).
    now rewrite (search_here _ _ id (match1_watch _ _ Hg)).
  - rewrite extract_video_id_unfold.
    rewrite (search_skip Re.match1 "y" pre _ match1_needs_y Hpre).
    now rewrite (search_here _ _ id (match1_short _ _ Hg)).
  - rewrite extract_video_id_unfold.
    rewrite (search_skip Re.match1 "y" pre _ match1_needs_y Hpre).
    now rewrite (search_here _ _ id (match1_embed _ _ Hg)).
  - intros query Hq Hv Hdot Hslash Hocc.
    rewrite extract_video_id_unfold.
    set (T := query ++ "v=" ++ id ++ rest).
    assert (H1 : Re.scan Re.match1 (pre ++ "youtube.com/watch?" ++ T) = None).
    { rewrite (search_skip Re.match1 "y" pre _ match1_needs_y Hpre).
      change ("youtube.com/watch?" ++ T)
        with (String "y" ("outube.com/watch?" ++ T)).
      rewrite search_cons.
      - rewrite (search_skip Re.match1 "y" "outube.com/watch?" T
                   match1_needs_y eq_refl).
        apply no_slash_no_match1. subst T.
        rewrite contains_append in Hslash.
        apply orb_false_iff in Hslash. destruct Hslash as [Hs1 Hs2].
        rewrite contains_append, Hs1.
        change ("v=" ++ id ++ rest) with (String "v" (String "=" (id ++ rest))).
        simpl. exact Hs2.
      - change (String "y" ("outube.com/watch?" ++ T))
          with ("youtube.com/watch?" ++ T).
        apply match1_watch_query. subst T. now apply literal_v_query. }
    rewrite H1.
    rewrite (search_skip Re.match2 "y" pre _ match2_needs_y Hpre).
    apply search_here. unfold Re.match2. rewrite literal_append.
    subst T. now apply star_v_last.
  - intros url m H. unfold extract_video_id, patterns, first_match.
    now rewrite H.
Qed.

(** C6 (amended). For every non-empty string that contains none of the
    recognised URL shapes [extract_video_id] returns [None], and the
    handler of [/api/summarize] answers status 400 with the body
    [{"error": "Invalid YouTube URL"}] and calls no provider. *)
Theorem unrecognized_url_is_rejected (u : string) (log : llm_log) :
  u <> "" ->
  ~ recognized_shape u ->
  extract_video_id u = None /\
  summarize list_transcripts chat_completion OPENAI_MODEL
    (mkSummarizeBody (Some u)) log
  = (error_response "Invalid YouTube URL" 400, log).
Proof.
  intros Hne Hs. apply extract_none_iff in Hs. split; [assumption|].
  unfold summarize. simpl url.
  destruct u as [|a u]; [congruence|]. simpl PyStr.truthy. simpl negb.
  cbv iota. now rewrite Hs.
Qed.

End ResolverClaims.

(* ================================================================= *)
(** ** The functions around the parsers and the fetcher *)

Section PipelineFacts.

Variable list_transcripts : string -> result TranscriptList.
Variable chat_completion : chat_request -> result (option string).
Variable json_loads : string -> result json.
Variable OPENAI_MODEL : option string.

(** [generate_quiz_with_ai] sends one request and hands the content of
    the answer to its parsing step. *)
Lemma generate_quiz_with_ai_parses (s : string) (log : llm_log)
    (content : option string) :
  chat_completion (quiz_request OPENAI_MODEL s) = Return content ->
  generate_quiz_with_ai chat_completion json_loads OPENAI_MODEL s log
  = (parse_quiz json_loads content,
     (log ++ [ quiz_request OPENAI_MODEL s ])%list).
Proof. intros H. unfold generate_quiz_with_ai. now rewrite H. Qed.

Lemma generate_matching_pairs_with_ai_parses (s : string) (log : llm_log)
    (content : option string) :
  chat_completion (pairs_request OPENAI_MODEL s) = Return content ->
  generate_matching_pairs_with_ai chat_completion json_loads OPENAI_MODEL s log
  = (parse_pairs json_loads content,
     (log ++ [ pairs_request OPENAI_MODEL s ])%list).
Proof. intros H. unfold generate_matching_pairs_with_ai. now rewrite H. Qed.

(** X6. Without an English track and without any track the function
    fails on the index of the empty list, with the message "Failed to
    get transcript: list index out of range", not with the message of
    a missing transcript. *)
Lemma no_track_at_all (video_id : string) (tl : TranscriptList) (e : exn) :
  list_transcripts video_id = Return tl ->
  find_transcript tl [ "en" ] = Raise e ->
  tracks tl = [] ->
  get_youtube_transcript list_transcripts video_id
  = Raise (Exception "Failed to get transcript: list index out of range").
Proof.
  intros Hl Hf Ht. unfold get_youtube_transcript, choose_track.
  rewrite Hl. simpl. now rewrite Hf, Ht.
Qed.

(** X13. When the URL resolves and the fetcher fails, the handler of
    [/api/summarize] answers status 500 with the message of the
    failure, and no chat request is sent. *)
Lemma summarize_transcript_failure (u video_id : string) (e : exn)
    (log : llm_log) :
  extract_video_id u = Some video_id ->
  get_youtube_transcript list_transcripts video_id = Raise e ->
  summarize list_transcripts chat_completion OPENAI_MODEL
    (mkSummarizeBody (Some u)) log
  = (error_response (str e) 500, log).
Proof.
  intros Hx Hg. unfold summarize. simpl url.
  destruct u as [|a u]; [discriminate|].
  simpl PyStr.truthy. simpl negb. cbv iota.
  rewrite Hx, (extract_nonempty _ _ Hx). simpl negb. cbv iota.
  now rewrite Hg.
Qed.

End PipelineFacts.

(* ================================================================= *)
(** ** Closed instances *)

(** Instance of C1: plain prose makes both parsers fail. *)
Lemma no_braces_is_an_error_witness :
  (PyStr.contains "{" "The video is about cats." = false \/
   PyStr.contains "}" "The video is about cats." = false) /\
  parse_quiz Json.loads (Some "The video is about cats.")
  = Raise (Exception "Failed to generate quiz: No JSON found in response") /\
  parse_pairs Json.loads (Some "The video is about cats.")
  = Raise (Exception
             "Failed to generate matching pairs: No JSON found in response").
Proof.
  split; [left; reflexivity|].
  apply (no_braces_is_an_error Json.loads "The video is about cats.").
  left; reflexivity.
Defined.

(** Against C1 as it was stated: on plain prose neither parser returns
    its fallback; both raise. *)
Lemma prose_is_not_absorbed :
  PyStr.contains "{" "The video is about cats." = false /\
  PyStr.contains "}" "The video is about cats." = false /\
  parse_quiz Json.loads (Some "The video is about cats.")
  <> Return fallback_questions /\
  parse_pairs Json.loads (Some "The video is about cats.")
  <> Return fallback_pairs.
Proof.
  split; [reflexivity|]. split; [reflexivity|].
  split; vm_compute; discriminate.
Qed.

(** The same at the endpoint: the quiz of a model that answers in prose
    is a response of status 500. *)
Example quiz_on_prose_is_an_error :
  generate_quiz (chat_answers (Some "The video is about cats.")) Json.loads
    None (mkSummaryBody (Some "A summary.")) []
  = (error_response "Failed to generate quiz: No JSON found in response" 500,
     [ quiz_request None "A summary." ]).
Proof. vm_compute. reflexivity. Qed.

(** Instance of C2: braces around a text that is not JSON. *)
Lemma decode_error_gives_fallback_witness :
  json_payload "Here you go: {not json} Enjoy!" = "{not json}" /\
  Json.loads "{not json}" = Raise Json.decode_error /\
  parse_quiz Json.loads (Some "Here you go: {not json} Enjoy!")
  = Return fallback_questions /\
  parse_pairs Json.loads (Some "Here you go: {not json} Enjoy!")
  = Return fallback_pairs.
Proof.
  split; [reflexivity|]. split; [reflexivity|].
  apply (proj1 (decode_error_gives_fallback Json.loads
                  "Here you go: {not json} Enjoy!" Json.decode_error
                  eq_refl eq_refl eq_refl)).
  reflexivity.
Defined.

(** Against C2 as it was stated: the text between the braces is not
    decodable, the decoder gives up on the depth of the nesting, which
    is not a decode error, and both parsers raise instead of returning
    their fallback. *)
Lemma deep_nesting_is_not_absorbed :
  PyStr.contains "{" deep_answer = true /\
  PyStr.contains "}" deep_answer = true /\
  Json.loads_limited 1000 (json_payload deep_answer)
  = Raise (Json.recursion_error "array") /\
  parse_quiz (Json.loads_limited 1000) (Some deep_answer)
  = Raise (Exception
             "Failed to generate quiz: maximum recursion depth exceeded while decoding a JSON array from a unicode string") /\
  parse_quiz (Json.loads_limited 1000) (Some deep_answer)
  <> Return fallback_questions /\
  parse_pairs (Json.loads_limited 1000) (Some deep_answer)
  <> Return fallback_pairs.
Proof.
  split; [vm_compute; reflexivity|].
  split; [vm_compute; reflexivity|].
  split; [vm_compute; reflexivity|].
  split; [vm_compute; reflexivity|].
  split; vm_compute; discriminate.
Qed.

(** Instance of C3: an object with another field. *)
Lemma missing_field_gives_empty_witness :
  Json.loads (json_payload other_field_answer)
  = Return (JObject [ ("items", JArray [ JInt 1; JInt 2 ]) ]) /\
  parse_quiz Json.loads (Some other_field_answer) = Return (JArray []) /\
  parse_pairs Json.loads (Some other_field_answer) = Return (JArray []).
Proof.
  split; [reflexivity|].
  destruct (missing_field_gives_empty Json.loads other_field_answer
              [ ("items", JArray [ JInt 1; JInt 2 ]) ]
              eq_refl eq_refl eq_refl) as [Hq Hp].
  split.
  - exact (proj1 (Hq eq_refl)).
  - exact (proj1 (Hp eq_refl)).
Defined.

(** Instance of C4: disabled subtitles, and a provider out of reach. *)
Lemma transcript_failure_mapping_witness :
  get_youtube_transcript disabled_video "abc123"
  = Raise (Exception "No transcript available for this video.") /\
  get_youtube_transcript unreachable_provider "abc123"
  = Raise (Exception "Failed to get transcript: connection refused").
Proof.
  split.
  - exact (proj1 (transcript_failure_mapping disabled_video "abc123"
                    (mkExn TranscriptsDisabled
                       "Subtitles are disabled for this video")
                    (or_introl eq_refl))).
  - exact (proj1 (transcript_failure_mapping unreachable_provider "abc123"
                    (mkExn (OtherError "ConnectionError") "connection refused")
                    (or_introl eq_refl))).
Defined.

(** Against C4 as it was stated: the provider signals that no English
    transcript was found, and the function does not fail: it returns
    the text of the first track. *)
Lemma english_search_failure_is_absorbed :
  (exists tl e,
     foreign_video [ "hola"; "mundo" ] "abc123" = Return tl /\
     find_transcript tl [ "en" ] = Raise e /\
     cls e = NoTranscriptFound) /\
  get_youtube_transcript (foreign_video [ "hola"; "mundo" ]) "abc123"
  = Return "hola mundo".
Proof.
  split; [|reflexivity].
  eexists _, _. split; [reflexivity|]. split; reflexivity.
Qed.

(** Instance of C5: the four shapes with the identifier [abc123]. *)
Lemma extract_video_id_of_shapes_witness :
  extract_video_id "https://youtube.com/watch?v=abc123&t=42"
  = Some "abc123" /\
  extract_video_id "https://youtu.be/abc123&t=42" = Some "abc123" /\
  extract_video_id "https://youtube.com/embed/abc123&t=42"
  = Some "abc123" /\
  extract_video_id "https://youtube.com/watch?feature=share&v=abc123&t=42"
  = Some "abc123".
Proof.
  destruct (extract_video_id_of_shapes "abc123" "https://" "&t=42")
    as [H1 [H2 [H3 [H4 _]]]];
    [discriminate | reflexivity | reflexivity | reflexivity |].
  split; [exact H1|]. split; [exact H2|]. split; [exact H3|].
  apply (H4 "feature=share&"); [discriminate | reflexivity ..].
Defined.

(** Against C5 as it was stated: an identifier over the alphabet of the
    capture group that the reordered-query shape does not give back. *)
Lemma reordered_query_loses_identifier :
  PyStr.all_chars Re.id_char "xv=y" = true /\
  extract_video_id ("https://www.youtube.com/watch?feature=share&v=" ++ "xv=y")
  = Some "y" /\
  extract_video_id ("https://www.youtube.com/watch?feature=share&v=" ++ "xv=y")
  <> Some "xv=y".
Proof.
  split; [reflexivity|]. split; [reflexivity|]. vm_compute. discriminate.
Qed.

(** Instance of C6: the request of scenario 2. *)
Lemma unrecognized_url_is_rejected_witness :
  ~ recognized_shape "not a url" /\
  extract_video_id "not a url" = None /\
  summarize (english_video [ "Hello "; "world." ])
    (chat_answers (Some "A summary.")) None
    (mkSummarizeBody (Some "not a url")) []
  = (error_response "Invalid YouTube URL" 400, []).
Proof.
  assert (H : ~ recognized_shape "not a url")
    by (apply extract_none_iff; reflexivity).
  split; [exact H|].
  apply (unrecognized_url_is_rejected (english_video [ "Hello "; "world." ])
           (chat_answers (Some "A summary.")) None "not a url" []);
    [discriminate | exact H].
Defined.

(** Against C6 as it was stated: the empty string contains no
    recognised shape, and the handler answers that the URL is
    required. *)
Lemma empty_url_is_required :
  ~ recognized_shape "" /\
  extract_video_id "" = None /\
  summarize (english_video [ "Hello "; "world." ])
    (chat_answers (Some "A summary.")) None
    (mkSummarizeBody (Some "")) []
  = (error_response "URL is required" 400, []) /\
  error_response "URL is required" 400
  <> error_response "Invalid YouTube URL" 400.
Proof.
  split; [apply extract_none_iff; reflexivity|].
  split; [reflexivity|]. split; [reflexivity | discriminate].
Qed.

(** Instance of C7: the fragments of scenario 1. *)
Lemma transcript_is_space_joined_witness :
  get_youtube_transcript (english_video [ "Hello "; "world." ]) "abc123"
  = Return "Hello  world.".
Proof.
  exact (proj1 (transcript_is_space_joined
                  (english_video [ "Hello "; "world." ]) "abc123"
                  _ _ _ eq_refl eq_refl eq_refl)).
Defined.

(** Scenario 1 at the endpoint. *)
Example summarize_short_link :
  fst (summarize (english_video [ "Hello "; "world." ])
         (chat_answers (Some " A greeting. ")) None
         (mkSummarizeBody (Some "https://youtu.be/abc123")) [])
  = (JObject [ ("summary", JString "A greeting.");
               ("transcript", JString "Hello  world.");
               ("video_id", JString "abc123") ], 200).
Proof. vm_compute. reflexivity. Qed.

(** Instance of C8: of a transcript of 10000 characters the prompt
    holds 4000, and it is 4303 characters long. *)
Lemma summary_prompt_keeps_first_4000_witness :
  Z.of_nat (String.length long_transcript) = 10000 /\
  exists prompt,
    snd (generate_summary_with_ai (chat_answers (Some "ok")) None
           long_transcript "medium" [])
    = [ mkChat "gpt-3.5-turbo" [ ("user", prompt) ] 500 (7 # 10) ] /\
    Z.of_nat (String.length prompt) = 4303.
Proof.
  split; [vm_compute; reflexivity|].
  destruct (summary_prompt_keeps_first_4000 (chat_answers (Some "ok")) None
              long_transcript "medium" [])
    as [instruction [embedded [rest [prompt [Hreq [Hp [Hi [_ [_ [Hlen _]]]]]]]]]].
  exists prompt. split; [exact Hreq|].
  assert (E : snd (generate_summary_with_ai (chat_answers (Some "ok")) None
                     long_transcript "medium" [])
              = [ mkChat "gpt-3.5-turbo"
                    [ ("user", summary_prompt long_transcript "medium") ]
                    500 (7 # 10) ]) by reflexivity.
  rewrite E in Hreq. injection Hreq as <-.
  vm_compute. reflexivity.
Defined.

(** Instance of C9: a decoded question is returned as it is. *)
Lemma quiz_questions_unchecked_witness :
  parse_quiz Json.loads (Some short_question_answer)
  = Return (JArray
              [ JObject [ ("question", JString "Q?");
                          ("options", JArray [ JString "A" ]);
                          ("answer", JString "Z") ] ]).
Proof.
  exact (proj2 (quiz_questions_unchecked Json.loads) short_question_answer
           [ ("questions",
              JArray
                [ JObject [ ("question", JString "Q?");
                            ("options", JArray [ JString "A" ]);
                            ("answer", JString "Z") ] ]) ]
           eq_refl eq_refl eq_refl).
Defined.

(** Against C9 as it was stated: a question decoded from the payload
    with one option and an answer that is not an option. *)
Lemma decoded_question_is_not_checked :
  exists questions,
    parse_quiz Json.loads (Some short_question_answer) = Return questions /\
    questions
    = JArray [ JObject [ ("question", JString "Q?");
                         ("options", JArray [ JString "A" ]);
                         ("answer", JString "Z") ] ] /\
    all_quiz_questions questions = false.
Proof.
  eexists. split; [vm_compute; reflexivity|]. split; reflexivity.
Qed.

(** Instance of C10: the request of scenario 1 sends the prompt of the
    medium length. *)
Lemma summarize_uses_medium_length_witness :
  snd (summarize (english_video [ "Hello "; "world." ])
         (chat_answers (Some " A greeting. ")) None
         (mkSummarizeBody (Some "https://youtu.be/abc123")) [])
  = [ mkChat "gpt-3.5-turbo"
        [ ("user", summary_template "in 1-2 paragraphs" "Hello  world.") ]
        500 (7 # 10) ] /\
  exists new,
    snd (summarize (english_video [ "Hello "; "world." ])
           (chat_answers (Some " A greeting. ")) None
           (mkSummarizeBody (Some "https://youtu.be/abc123")) [])
    = new /\
    Forall
      (fun r =>
         exists transcript,
           r = summary_request None transcript "medium") new.
Proof.
  split; [reflexivity|].
  destruct (summarize_uses_medium_length
              (english_video [ "Hello "; "world." ])
              (chat_answers (Some " A greeting. ")) Json.loads None
              (mkSummarizeBody (Some "https://youtu.be/abc123"))
              (mkSummaryBody None) []) as [[new [E F]] _].
  exists new. split; [exact E|].
  apply Forall_forall. intros r Hr.
  rewrite Forall_forall in F. destruct (F r Hr) as [t [Et _]].
  now exists t.
Defined.

(* ================================================================= *)
(** ** More about the URL resolver *)

Section ResolverMore.

Lemma take_id_split (s : string) :
  exists post,
    s = Re.take_id s ++ post /\ ends_id post = true /\
    PyStr.all_chars Re.id_char (Re.take_id s) = true.
Proof.
  induction s as [|a s [post [E [Hp Ha]]]].
  - now exists "".
  - simpl. destruct (Re.id_char a) eqn:Ea.
    + exists post. simpl. rewrite Ea, Ha, <- E. auto.
    + exists (String a s). simpl. rewrite Ea. auto.
Qed.

Lemma group1_split (r g : string) :
  Re.group1 r = Some g ->
  exists post,
    r = g ++ post /\ ends_id post = true /\
    PyStr.all_chars Re.id_char g = true /\ g <> "".
Proof.
  intros H. destruct (group1_inv r g H) as [-> [c [rest [-> Hc]]]].
  destruct (take_id_split (String c rest)) as [post [E [Hp Ha]]].
  exists post. repeat split; try assumption.
  simpl. rewrite Hc. discriminate.
Qed.

Lemma alternatives_inv_group (ps : list string) (t g : string) :
  Re.alternatives ps t = Some g ->
  exists p rest, In p ps /\ t = p ++ rest /\ Re.group1 rest = Some g.
Proof.
  induction ps as [|p ps IH]; simpl; [discriminate|].
  destruct (Re.literal p t) as [r|] eqn:El.
  - destruct (Re.group1 r) as [g'|] eqn:Eg.
    + intros H. injection H as ->. apply literal_inv in El.
      exists p, r. auto.
    + intros H. destruct (IH H) as [p' [rest [Hin H']]].
      exists p', rest. auto.
  - intros H. destruct (IH H) as [p' [rest [Hin H']]].
    exists p', rest. auto.
Qed.

Lemma star_v_inv_group (t g : string) :
  Re.star_v t = Some g ->
  exists mid rest, t = mid ++ "v=" ++ rest /\ Re.group1 rest = Some g.
Proof.
  assert (Here : forall s,
             match Re.literal "v=" s with
             | Some r => Re.group1 r
             | None => None
             end = Some g ->
             exists mid rest, s = mid ++ "v=" ++ rest /\
                              Re.group1 rest = Some g).
  { intros s H. destruct (Re.literal "v=" s) as [r|] eqn:El; [|discriminate].
    apply literal_inv in El. exists "", r. auto. }
  induction t as [|a t IH]; [discriminate|].
  rewrite star_v_cons.
  destruct (Re.dot a).
  - destruct (Re.star_v t) as [g'|].
    + intros H. destruct (IH H) as [mid [rest [E Hg]]].
      exists (String a mid), rest. subst. auto.
    + apply Here.
  - apply Here.
Qed.

(** X1. What the resolver returns is a piece of the URL: it is not
    empty, it has none of the characters [&], line feed, [?] and [#],
    it stands right behind one of the literals of the patterns, and it
    runs up to the end of the URL or to the first such character. *)
Theorem extract_video_id_is_part_of_url (url g : string) :
  extract_video_id url = Some g ->
  exists pre lit post,
    In lit [ "youtube.com/watch?v="; "youtu.be/"; "youtube.com/embed/"; "v=" ] /\
    url = pre ++ lit ++ g ++ post /\
    ends_id post = true /\
    PyStr.all_chars Re.id_char g = true /\
    g <> "".
Proof.
  rewrite extract_video_id_unfold.
  destruct (Re.scan Re.match1 url) as [g1|] eqn:E1.
  - intros H. injection H as ->.
    destruct (search_inv _ _ _ E1) as [pre [t [-> Hm]]].
    destruct (alternatives_inv_group _ _ _ Hm) as [p [rest [Hin [-> Hg]]]].
    destruct (group1_split _ _ Hg) as [post [-> [Hp [Ha Hne]]]].
    exists pre, p, post. repeat split; try assumption.
    simpl in Hin. simpl. tauto.
  - intros E2.
    destruct (search_inv _ _ _ E2) as [pre [t [-> Hm]]].
    unfold Re.match2 in Hm.
    destruct (Re.literal "youtube.com/watch?" t) as [r|] eqn:El;
      [|discriminate].
    apply literal_inv in El.
    destruct (star_v_inv_group _ _ Hm) as [mid [rest [-> Hg]]].
    destruct (group1_split _ _ Hg) as [post [-> [Hp [Ha Hne]]]].
    exists (pre ++ "youtube.com/watch?" ++ mid), "v=", post.
    repeat split; try assumption.
    + simpl. tauto.
    + subst t. now rewrite !append_assoc.
Qed.

(** X2. The resolver finds an identifier exactly in the URLs that
    contain one of the recognised shapes. *)
Theorem extract_video_id_found_iff (url : string) :
  (exists g, extract_video_id url = Some g) <-> recognized_shape url.
Proof.
  rewrite extract_video_id_unfold. split.
  - intros [g H].
    destruct (Re.scan Re.match1 url) as [g1|] eqn:E1.
    + left. now apply (search_match1_shape url g1).
    + right. now apply (search_match2_shape url g).
  - intros [Hs | Hs].
    + destruct (direct_shape_found url Hs) as [g Hg]. rewrite Hg. eauto.
    + destruct (query_shape_found url Hs) as [g Hg].
      destruct (Re.scan Re.match1 url); eauto.
Qed.

(** X3. Text without the letter [y] in front of a URL (a scheme, [www.],
    [m.], white space) does not change what the resolver returns. *)
Theorem extract_video_id_skips_prefix (pre url : string) :
  PyStr.contains "y" pre = false ->
  extract_video_id (pre ++ url) = extract_video_id url.
Proof.
  intros H. rewrite !extract_video_id_unfold.
  rewrite (search_skip Re.match1 "y" pre url match1_needs_y H).
  now rewrite (search_skip Re.match2 "y" pre url match2_needs_y H).
Qed.

End ResolverMore.

Lemma extract_video_id_is_part_of_url_witness :
  extract_video_id "https://youtu.be/abc123?t=9" = Some "abc123" /\
  exists pre lit post,
    "https://youtu.be/abc123?t=9" = pre ++ lit ++ "abc123" ++ post /\
    ends_id post = true.
Proof.
  split; [reflexivity|].
  destruct (extract_video_id_is_part_of_url "https://youtu.be/abc123?t=9"
              "abc123" eq_refl) as [pre [lit [post [_ [E [Hp _]]]]]].
  exists pre, lit, post. auto.
Defined.

Lemma extract_video_id_found_iff_witness :
  recognized_shape "https://www.youtube.com/embed/abc123".
Proof.
  apply (proj1 (extract_video_id_found_iff
                  "https://www.youtube.com/embed/abc123")).
  exists "abc123". reflexivity.
Defined.

Lemma extract_video_id_skips_prefix_witness :
  extract_video_id ("  http://m." ++ "youtube.com/watch?v=abc123")
  = extract_video_id "youtube.com/watch?v=abc123".
Proof.
  apply (extract_video_id_skips_prefix "  http://m."
           "youtube.com/watch?v=abc123").
  reflexivity.
Defined.

(* ================================================================= *)
(** ** More about the transcript fetcher *)

Section TranscriptMore.

Variable list_transcripts : string -> result TranscriptList.

(** X4. Whatever the provider does, an exception that leaves
    [get_youtube_transcript] is a plain [Exception], and its message
    is the fixed one or begins with "Failed to get transcript: ". *)
Theorem transcript_errors_are_normalised (video_id : string) (e : exn) :
  get_youtube_transcript list_transcripts video_id = Raise e ->
  cls e = Exception_ /\
  (str e = "No transcript available for this video." \/
   exists cause, str e = "Failed to get transcript: " ++ cause).
Proof.
  unfold get_youtube_transcript.
  destruct (bind (list_transcripts video_id) _) as [e0|t]; [|discriminate].
  destruct (is_transcript_unavailable (cls e0)); intros H; injection H as <-.
  - split; [reflexivity | now left].
  - split; [reflexivity | right; now exists (str e0)].
Qed.

(** X5. The English track is preferred whatever else is listed; when
    the search for it fails, the first track listed is fetched and the
    others are not looked at. *)
Theorem track_selection (video_id : string) (tl : TranscriptList) :
  list_transcripts video_id = Return tl ->
  (forall t,
     find_transcript tl [ "en" ] = Return t ->
     get_youtube_transcript list_transcripts video_id
     = get_youtube_transcript
         (fun _ => Return (mkTranscriptList (fun _ => Return t) [])) video_id)
  /\
  (forall e t others,
     find_transcript tl [ "en" ] = Raise e ->
     tracks tl = t :: others ->
     get_youtube_transcript list_transcripts video_id
     = get_youtube_transcript
         (fun _ => Return (mkTranscriptList (fun _ => Raise e) [ t ]))
         video_id).
Proof.
  intros Hl. split.
  - intros t Hf.
    rewrite (transcript_after_listing list_transcripts video_id tl t Hl)
      by (unfold choose_track; now rewrite Hf).
    symmetry. now apply transcript_after_listing with
      (tl := mkTranscriptList (fun _ => Return t) []).
  - intros e t others Hf Ht.
    rewrite (transcript_after_listing list_transcripts video_id tl t Hl)
      by (unfold choose_track; now rewrite Hf, Ht).
    symmetry. now apply transcript_after_listing with
      (tl := mkTranscriptList (fun _ => Raise e) [ t ]).
Qed.

End TranscriptMore.

Lemma transcript_errors_are_normalised_witness :
  get_youtube_transcript unreachable_provider "abc123"
  = Raise (Exception "Failed to get transcript: connection refused") /\
  cls (Exception "Failed to get transcript: connection refused") = Exception_.
Proof.
  split; [reflexivity|].
  exact (proj1 (transcript_errors_are_normalised unreachable_provider "abc123"
                  _ eq_refl)).
Defined.

Lemma track_selection_witness :
  get_youtube_transcript (foreign_video [ "hola"; "mundo" ]) "abc123"
  = Return "hola mundo".
Proof.
  destruct (track_selection (foreign_video [ "hola"; "mundo" ]) "abc123"
              _ eq_refl) as [_ H].
  rewrite (H _ (track_of [ "hola"; "mundo" ]) [] eq_refl eq_refl).
  reflexivity.
Defined.

Lemma no_track_at_all_witness :
  get_youtube_transcript
    (fun _ => Return (mkTranscriptList
                        (fun _ => Raise (mkExn NoTranscriptFound "none"))
                        []))
    "abc123"
  = Raise (Exception "Failed to get transcript: list index out of range").
Proof.
  apply (no_track_at_all
           (fun _ => Return (mkTranscriptList
                               (fun _ => Raise (mkExn NoTranscriptFound "none"))
                               []))
           "abc123" _ (mkExn NoTranscriptFound "none") eq_refl eq_refl eq_refl).
Defined.

(* ================================================================= *)
(** ** More about the answers of the language model *)

Section StripMore.

Lemma lstrip_split (s : string) :
  exists ws, s = ws ++ PyStr.lstrip s /\
             PyStr.all_chars PyStr.isspace ws = true.
Proof.
  induction s as [|a s [ws [E H]]].
  - now exists "".
  - simpl. destruct (PyStr.isspace a) eqn:Ea.
    + exists (String a ws). simpl. rewrite Ea, H, <- E. auto.
    + now exists "".
Qed.

Lemma lstrip_blank (s : string) :
  PyStr.all_chars PyStr.isspace s = true -> PyStr.lstrip s = "".
Proof.
  induction s as [|a s IH]; simpl; [reflexivity|].
  intros H. apply andb_true_iff in H. destruct H as [Ha Hs].
  rewrite Ha. now apply IH.
Qed.

Lemma rstrip_idempotent (s : string) :
  PyStr.rstrip (PyStr.rstrip s) = PyStr.rstrip s.
Proof.
  induction s as [|a s IH]; [reflexivity|].
  simpl. destruct (PyStr.rstrip s) as [|b r] eqn:Er.
  - destruct (PyStr.isspace a) eqn:Ea; [reflexivity|].
    simpl. now rewrite Ea.
  - change (PyStr.rstrip (String a (String b r)))
      with (match PyStr.rstrip (String b r) with
            | EmptyString =>
                if PyStr.isspace a then EmptyString else String a EmptyString
            | r' => String a r'
            end).
    now rewrite IH.
Qed.

(** What [lstrip] leaves does not begin with white space, and neither
    does what [rstrip] makes of it. *)
Lemma lstrip_rstrip_lstrip (s : string) :
  PyStr.lstrip (PyStr.rstrip (PyStr.lstrip s)) = PyStr.rstrip (PyStr.lstrip s).
Proof.
  assert (Hhead : forall t, PyStr.lstrip s = t ->
                    match t with
                    | EmptyString => True
                    | String a _ => PyStr.isspace a = false
                    end).
  { induction s as [|a s IH]; simpl; intros t <-; [exact I|].
    destruct (PyStr.isspace a) eqn:Ea; [now apply IH | exact Ea]. }
  specialize (Hhead _ eq_refl).
  destruct (PyStr.lstrip s) as [|a t]; [reflexivity|].
  simpl PyStr.rstrip.
  destruct (PyStr.rstrip t); rewrite ?Hhead; simpl; now rewrite Hhead.
Qed.

Lemma strip_idempotent (s : string) :
  PyStr.strip (PyStr.strip s) = PyStr.strip s.
Proof.
  unfold PyStr.strip. now rewrite lstrip_rstrip_lstrip, rstrip_idempotent.
Qed.

Lemma strip_split (s : string) :
  exists ws1 ws2,
    s = ws1 ++ PyStr.strip s ++ ws2 /\
    PyStr.all_chars PyStr.isspace ws1 = true /\
    PyStr.all_chars PyStr.isspace ws2 = true.
Proof.
  destruct (lstrip_split s) as [ws1 [E1 H1]].
  destruct (rstrip_split (PyStr.lstrip s)) as [ws2 [E2 H2]].
  exists ws1, ws2. unfold PyStr.strip.
  rewrite <- E2, <- E1. auto.
Qed.

End StripMore.

Section SummaryMore.

Variable chat_completion : chat_request -> result (option string).
Variable json_loads : string -> result json.
Variable OPENAI_MODEL : option string.

(** X7. The summary is the content of the answer without the white
    space at its two ends; stripping it again changes nothing. *)
Theorem summary_is_trimmed (transcript length content : string)
    (log : llm_log) :
  chat_completion (summary_request OPENAI_MODEL transcript length)
  = Return (Some content) ->
  content <> "" ->
  exists summary ws1 ws2,
    fst (generate_summary_with_ai chat_completion OPENAI_MODEL
           transcript length log) = Return summary /\
    content = ws1 ++ summary ++ ws2 /\
    PyStr.all_chars PyStr.isspace ws1 = true /\
    PyStr.all_chars PyStr.isspace ws2 = true /\
    PyStr.strip summary = summary.
Proof.
  intros Hc Hne.
  destruct (strip_split content) as [ws1 [ws2 [E [H1 H2]]]].
  exists (PyStr.strip content), ws1, ws2.
  split; [|split; [exact E | split; [exact H1 | split; [exact H2|]]]].
  - unfold generate_summary_with_ai. simpl fst. rewrite Hc.
    destruct content; [congruence | reflexivity].
  - apply strip_idempotent.
Qed.

(** X8. An answer made of white space only passes the test for missing
    content, which is made before the stripping: the function returns
    the empty summary and raises nothing. *)
Theorem blank_answer_gives_empty_summary (transcript length content : string)
    (log : llm_log) :
  chat_completion (summary_request OPENAI_MODEL transcript length)
  = Return (Some content) ->
  content <> "" ->
  PyStr.all_chars PyStr.isspace content = true ->
  fst (generate_summary_with_ai chat_completion OPENAI_MODEL
         transcript length log) = Return "".
Proof.
  intros Hc Hne Hb. unfold generate_summary_with_ai. simpl fst. rewrite Hc.
  destruct content as [|a content]; [congruence|].
  simpl. unfold PyStr.strip. now rewrite (lstrip_blank _ Hb).
Qed.

(** X9. An exception that leaves one of the three generating functions
    is a plain [Exception] whose message begins with the prefix of the
    function. *)
Theorem generator_errors_carry_prefix (text length : string) (log : llm_log)
    (e : exn) :
  (fst (generate_summary_with_ai chat_completion OPENAI_MODEL text length log)
   = Raise e ->
   cls e = Exception_ /\
   exists cause, str e = "Failed to generate summary: " ++ cause) /\
  (fst (generate_quiz_with_ai chat_completion json_loads OPENAI_MODEL text log)
   = Raise e ->
   cls e = Exception_ /\
   exists cause, str e = "Failed to generate quiz: " ++ cause) /\
  (fst (generate_matching_pairs_with_ai chat_completion json_loads
          OPENAI_MODEL text log)
   = Raise e ->
   cls e = Exception_ /\
   exists cause, str e = "Failed to generate matching pairs: " ++ cause).
Proof.
  split; [|split].
  - unfold generate_summary_with_ai. simpl fst. unfold try_except.
    destruct (bind _ _) as [e0|v]; [|discriminate].
    simpl. intros H. injection H as <-. split; [reflexivity | now exists (str e0)].
  - unfold generate_quiz_with_ai. simpl fst.
    destruct (chat_completion _) as [e0|content].
    + intros H. injection H as <-. split; [reflexivity | now exists (str e0)].
    + unfold parse_quiz, try_except.
      destruct (bind _ _) as [e0|v]; [|discriminate].
      simpl. intros H. injection H as <-.
      split; [reflexivity | now exists (str e0)].
  - unfold generate_matching_pairs_with_ai. simpl fst.
    destruct (chat_completion _) as [e0|content].
    + intros H. injection H as <-. split; [reflexivity | now exists (str e0)].
    + unfold parse_pairs, try_except.
      destruct (bind _ _) as [e0|v]; [|discriminate].
      simpl. intros H. injection H as <-.
      split; [reflexivity | now exists (str e0)].
Qed.

(** X10. When the provider answers without content ([None] or the empty
    string), each generating function fails with "No content received
    from AI" behind its prefix. *)
Theorem no_content_is_an_error (text length : string) (log : llm_log)
    (content : option string) :
  content = None \/ content = Some "" ->
  (chat_completion (summary_request OPENAI_MODEL text length) = Return content ->
   fst (generate_summary_with_ai chat_completion OPENAI_MODEL text length log)
   = Raise (Exception
              "Failed to generate summary: No content received from AI")) /\
  (chat_completion (quiz_request OPENAI_MODEL text) = Return content ->
   fst (generate_quiz_with_ai chat_completion json_loads OPENAI_MODEL text log)
   = Raise (Exception
              "Failed to generate quiz: No content received from AI")) /\
  (chat_completion (pairs_request OPENAI_MODEL text) = Return content ->
   fst (generate_matching_pairs_with_ai chat_completion json_loads
          OPENAI_MODEL text log)
   = Raise (Exception
              "Failed to generate matching pairs: No content received from AI")).
Proof.
  intros Hc. split; [|split]; intros H.
  - unfold generate_summary_with_ai. simpl fst. rewrite H.
    destruct Hc as [-> | ->]; reflexivity.
  - unfold generate_quiz_with_ai. simpl fst. rewrite H.
    destruct Hc as [-> | ->]; reflexivity.
  - unfold generate_matching_pairs_with_ai. simpl fst. rewrite H.
    destruct Hc as [-> | ->]; reflexivity.
Qed.

End SummaryMore.

(* ================================================================= *)
(** ** More about the handlers *)

Section HandlerMore.

Variable list_transcripts : string -> result TranscriptList.
Variable chat_completion : chat_request -> result (option string).
Variable json_loads : string -> result json.
Variable OPENAI_MODEL : option string.

Lemma summarize_after_transcript (u video_id transcript : string)
    (log : llm_log) :
  extract_video_id u = Some video_id ->
  get_youtube_transcript list_transcripts video_id = Return transcript ->
  summarize list_transcripts chat_completion OPENAI_MODEL
    (mkSummarizeBody (Some u)) log
  = match generate_summary_with_ai chat_completion OPENAI_MODEL
            transcript default_length log with
    | (Raise e, log') => (error_response (str e) 500, log')
    | (Return s, log') =>
        ((JObject [ ("summary", JString s);
                    ("transcript", JString transcript);
                    ("video_id", JString video_id) ], 200), log')
    end.
Proof.
  intros Hx Hg. unfold summarize. simpl url.
  destruct u as [|a u]; [discriminate|].
  simpl PyStr.truthy. simpl negb. cbv iota.
  rewrite Hx, (extract_nonempty _ _ Hx). simpl negb. cbv iota.
  now rewrite Hg.
Qed.

(** X11. When the URL resolves, the transcript is fetched and the model
    answers with content, the handler of [/api/summarize] answers
    status 200 with the stripped answer as summary, the whole
    transcript (not the 4000 characters of the prompt) and the
    identifier, and it has sent one request. *)
Theorem summarize_success (u video_id transcript content : string)
    (log : llm_log) :
  extract_video_id u = Some video_id ->
  get_youtube_transcript list_transcripts video_id = Return transcript ->
  chat_completion (summary_request OPENAI_MODEL transcript "medium")
  = Return (Some content) ->
  content <> "" ->
  summarize list_transcripts chat_completion OPENAI_MODEL
    (mkSummarizeBody (Some u)) log
  = ((JObject [ ("summary", JString (PyStr.strip content));
                ("transcript", JString transcript);
                ("video_id", JString video_id) ], 200),
     (log ++ [ summary_request OPENAI_MODEL transcript "medium" ])%list).
Proof.
  intros Hx Hg Hc Hne.
  rewrite (summarize_after_transcript u video_id transcript log Hx Hg).
  unfold generate_summary_with_ai, default_length. rewrite Hc.
  destruct content; [congruence | reflexivity].
Qed.


(** X14. When the call to the model raises, the handler of
    [/api/summarize] answers status 500 with "Failed to generate
    summary: " and the message of the exception; the request was
    sent. *)
Theorem summarize_model_failure (u video_id transcript : string) (e : exn)
    (log : llm_log) :
  extract_video_id u = Some video_id ->
  get_youtube_transcript list_transcripts video_id = Return transcript ->
  chat_completion (summary_request OPENAI_MODEL transcript "medium")
  = Raise e ->
  summarize list_transcripts chat_completion OPENAI_MODEL
    (mkSummarizeBody (Some u)) log
  = (error_response ("Failed to generate summary: " ++ str e) 500,
     (log ++ [ summary_request OPENAI_MODEL transcript "medium" ])%list).
Proof.
  intros Hx Hg Hc.
  rewrite (summarize_after_transcript u video_id transcript log Hx Hg).
  unfold generate_summary_with_ai, default_length. now rewrite Hc.
Qed.

(** On a body whose summary is a string or is missing, the handlers
    of the quiz and of the pairs answer status 400 when the summary is
    missing or empty, and only then. *)
Theorem summary_is_required (body : summary_body) (log : llm_log) :
  (snd (fst (generate_quiz chat_completion json_loads OPENAI_MODEL body log))
   = 400 <-> missing (summary body) = true) /\
  (snd (fst (generate_matching_pairs chat_completion json_loads OPENAI_MODEL
               body log))
   = 400 <-> missing (summary body) = true) /\
  (missing (summary body) = true ->
   generate_quiz chat_completion json_loads OPENAI_MODEL body log
   = (error_response "Summary is required" 400, log) /\
   generate_matching_pairs chat_completion json_loads OPENAI_MODEL body log
   = (error_response "Summary is required" 400, log)).
Proof.
  destruct body as [[s|]];
    cbv beta iota delta [generate_quiz generate_matching_pairs summary missing].
  2:{ repeat split; reflexivity. }
  destruct (PyStr.truthy s); simpl negb; cbv iota.
  2:{ repeat split; reflexivity. }
  split; [|split]; [| |discriminate].
  - destruct (generate_quiz_with_ai _ _ _ _ _) as [[e|v] log']; simpl;
      split; discriminate.
  - destruct (generate_matching_pairs_with_ai _ _ _ _ _) as [[e|v] log'];
      simpl; split; discriminate.
Qed.

(** X16. When the decoder raises its decode error on the text between
    the braces of the model's answer, both endpoints still answer
    status 200: the body of the quiz holds the list of the one fallback
    question (four options "Topic A" to "Topic D", answer "Topic A"),
    the body of the pairs the list of the one fallback pair. *)
Theorem undecodable_answer_is_served (s content : string) (e : exn)
    (log : llm_log) :
  s <> "" ->
  PyStr.contains "{" content = true ->
  PyStr.contains "}" content = true ->
  json_loads (json_payload content) = Raise e ->
  cls e = JSONDecodeError ->
  (chat_completion (quiz_request OPENAI_MODEL s) = Return (Some content) ->
   generate_quiz chat_completion json_loads OPENAI_MODEL
     (mkSummaryBody (Some s)) log
   = ((JObject
         [ ("questions",
            JArray
              [ JObject
                  [ ("question",
                     JString "What is the main topic discussed in the video?");
                    ("options",
                     JArray [ JString "Topic A"; JString "Topic B";
                              JString "Topic C"; JString "Topic D" ]);
                    ("answer", JString "Topic A") ] ]) ], 200),
      (log ++ [ quiz_request OPENAI_MODEL s ])%list)) /\
  (chat_completion (pairs_request OPENAI_MODEL s) = Return (Some content) ->
   generate_matching_pairs chat_completion json_loads OPENAI_MODEL
     (mkSummaryBody (Some s)) log
   = ((JObject
         [ ("pairs",
            JArray
              [ JObject
                  [ ("term", JString "Key Concept");
                    ("definition",
                     JString "An important idea from the video") ] ]) ], 200),
      (log ++ [ pairs_request OPENAI_MODEL s ])%list)).
Proof.
  intros Hs Ho Hc Hd He. split; intros Hchat.
  - unfold generate_quiz. simpl summary.
    destruct s as [|a s]; [congruence|]. simpl PyStr.truthy. simpl negb.
    cbv iota.
    rewrite (generate_quiz_with_ai_parses chat_completion json_loads
               OPENAI_MODEL _ log _ Hchat).
    rewrite (parse_quiz_payload json_loads content Ho Hc), Hd.
    simpl. rewrite He. reflexivity.
  - unfold generate_matching_pairs. simpl summary.
    destruct s as [|a s]; [congruence|]. simpl PyStr.truthy. simpl negb.
    cbv iota.
    rewrite (generate_matching_pairs_with_ai_parses chat_completion json_loads
               OPENAI_MODEL _ log _ Hchat).
    rewrite (parse_pairs_payload json_loads content Ho Hc), Hd.
    simpl. rewrite He. reflexivity.
Qed.

(** X17. An answer of the model without braces makes both handlers
    answer status 500 with "No JSON found in response" behind the
    prefix of the function. *)
Theorem prose_answer_is_an_error (s content : string) (log : llm_log) :
  s <> "" ->
  content <> "" ->
  PyStr.contains "{" content = false \/ PyStr.contains "}" content = false ->
  (chat_completion (quiz_request OPENAI_MODEL s) = Return (Some content) ->
   generate_quiz chat_completion json_loads OPENAI_MODEL
     (mkSummaryBody (Some s)) log
   = (error_response "Failed to generate quiz: No JSON found in response" 500,
      (log ++ [ quiz_request OPENAI_MODEL s ])%list)) /\
  (chat_completion (pairs_request OPENAI_MODEL s) = Return (Some content) ->
   generate_matching_pairs chat_completion json_loads OPENAI_MODEL
     (mkSummaryBody (Some s)) log
   = (error_response
        "Failed to generate matching pairs: No JSON found in response" 500,
      (log ++ [ pairs_request OPENAI_MODEL s ])%list)).
Proof.
  intros Hs Hne Hb. split; intros Hchat.
  - unfold generate_quiz. simpl summary.
    destruct s as [|a s]; [congruence|]. simpl PyStr.truthy. simpl negb.
    cbv iota.
    rewrite (generate_quiz_with_ai_parses chat_completion json_loads
               OPENAI_MODEL _ log _ Hchat).
    rewrite (parse_quiz_no_json json_loads content Hb).
    destruct content; [congruence | reflexivity].
  - unfold generate_matching_pairs. simpl summary.
    destruct s as [|a s]; [congruence|]. simpl PyStr.truthy. simpl negb.
    cbv iota.
    rewrite (generate_matching_pairs_with_ai_parses chat_completion json_loads
               OPENAI_MODEL _ log _ Hchat).
    rewrite (parse_pairs_no_json json_loads content Hb).
    destruct content; [congruence | reflexivity].
Qed.

End HandlerMore.

(* ================================================================= *)
(** ** More about the text between the braces *)

Section PayloadMore.

Variable json_loads : string -> result json.

Lemma find_first (c : ascii) (pre rest : string) :
  PyStr.contains c pre = false ->
  PyStr.find c (pre ++ String c rest) = Z.of_nat (String.length pre).
Proof.
  induction pre as [|a pre IH]; simpl String.length; simpl append.
  - intros _. simpl. now rewrite Ascii.eqb_refl.
  - simpl PyStr.contains. destruct (Ascii.eqb a c) eqn:Ea; [discriminate|].
    intros H. simpl PyStr.find. rewrite Ea, (IH H).
    destruct (Z.eqb_spec (Z.of_nat (String.length pre)) (-1)); lia.
Qed.

Lemma rfind_last (c : ascii) (pre rest : string) :
  PyStr.contains c rest = false ->
  PyStr.rfind c (pre ++ String c rest) = Z.of_nat (String.length pre).
Proof.
  intros H. induction pre as [|a pre IH]; simpl String.length; simpl append.
  - simpl. now rewrite (rfind_absent c rest H), Ascii.eqb_refl.
  - simpl PyStr.rfind. rewrite IH.
    destruct (Z.eqb_spec (Z.of_nat (String.length pre)) (-1)); lia.
Qed.

Lemma slice_middle (pre mid post : string) :
  PyStr.slice (pre ++ mid ++ post)
    (Z.of_nat (String.length pre))
    (Z.of_nat (String.length pre) + Z.of_nat (String.length mid))
  = mid.
Proof.
  induction pre as [|a pre IH]; simpl String.length; simpl append.
  - rewrite Z.add_0_l, slice_from_start by lia.
    rewrite Nat2Z.id, substring_append by (simpl; lia).
    now apply substring_all.
  - replace (Z.of_nat (S (String.length pre)))
      with (Z.of_nat (String.length pre) + 1) by lia.
    replace (Z.of_nat (String.length pre) + 1 + Z.of_nat (String.length mid))
      with (Z.of_nat (String.length pre) + Z.of_nat (String.length mid) + 1)
      by lia.
    rewrite slice_cons by lia. exact IH.
Qed.

Lemma slice_empty (s : string) (lo hi : Z) :
  0 <= hi <= lo -> PyStr.slice s lo hi = "".
Proof.
  intros H. unfold PyStr.slice, PyStr.clamp.
  destruct (Z.ltb_spec lo 0); [lia|]. destruct (Z.ltb_spec hi 0); [lia|].
  replace (Z.to_nat (Z.min hi (Z.of_nat (String.length s))
                     - Z.min lo (Z.of_nat (String.length s))))
    with 0%nat by lia.
  apply substring_zero.
Qed.

(** X18. Prose around the object is dropped: when no opening brace
    stands before the object and no closing brace behind it, the text
    handed to the decoder is the object from its first to its last
    character. *)
Theorem payload_ignores_prose (pre mid post : string) :
  PyStr.contains "{" pre = false ->
  PyStr.contains "}" post = false ->
  json_payload (pre ++ "{" ++ mid ++ "}" ++ post) = "{" ++ mid ++ "}".
Proof.
  intros Hpre Hpost. unfold json_payload.
  change (pre ++ "{" ++ mid ++ "}" ++ post)
    with (pre ++ String "{" (mid ++ String "}" post)) at 2.
  rewrite (find_first "{" pre _ Hpre).
  replace (pre ++ "{" ++ mid ++ "}" ++ post)
    with ((pre ++ "{" ++ mid) ++ String "}" post) at 2
    by (now rewrite !append_assoc).
  rewrite (rfind_last "}" (pre ++ "{" ++ mid) post Hpost).
  replace (pre ++ "{" ++ mid ++ "}" ++ post)
    with (pre ++ ("{" ++ mid ++ "}") ++ post)
    by (now rewrite !append_assoc).
  replace (Z.of_nat (String.length (pre ++ "{" ++ mid)) + 1)
    with (Z.of_nat (String.length pre)
          + Z.of_nat (String.length ("{" ++ mid ++ "}"))).
  - apply slice_middle.
  - rewrite !length_append. simpl String.length.
    rewrite ?length_append. simpl String.length. lia.
Qed.

(** X19. When the last closing brace stands before the first opening
    brace, the text handed to the decoder is empty; with a decoder that
    refuses the empty text both parsers return their fallback. *)
Theorem reversed_braces_give_fallback (content : string) (e : exn) :
  PyStr.contains "{" content = true ->
  PyStr.contains "}" content = true ->
  PyStr.rfind "}" content < PyStr.find "{" content ->
  json_loads "" = Raise e ->
  cls e = JSONDecodeError ->
  json_payload content = "" /\
  parse_quiz json_loads (Some content) = Return fallback_questions /\
  parse_pairs json_loads (Some content) = Return fallback_pairs.
Proof.
  intros Ho Hc Hlt Hd He.
  assert (Hp : json_payload content = "").
  { unfold json_payload. apply slice_empty.
    pose proof (rfind_present _ _ Hc). lia. }
  split; [exact Hp|]. split.
  - rewrite parse_quiz_payload by assumption.
    rewrite Hp, Hd. simpl. now rewrite He.
  - rewrite parse_pairs_payload by assumption.
    rewrite Hp, Hd. simpl. now rewrite He.
Qed.

(** X21. The pairs parser does not check what it decodes either: it
    returns the value of the field [pairs] as it was decoded; its
    fallback is one pair of a term and a definition. *)
Theorem pairs_are_returned_as_decoded (content : string)
    (d : list (string * json)) :
  PyStr.contains "{" content = true ->
  PyStr.contains "}" content = true ->
  json_loads (json_payload content) = Return (JObject d) ->
  parse_pairs json_loads (Some content)
  = Return (get_default d "pairs" (JArray [])).
Proof.
  intros Ho Hc Hd. rewrite parse_pairs_payload by assumption.
  now rewrite Hd.
Qed.

End PayloadMore.

(** X20. A length that is not a key of [length_instructions] gives the
    prompt of the length "medium". *)
Theorem unknown_length_means_medium (transcript length : string) :
  length <> "short" -> length <> "long" ->
  summary_prompt transcript length = summary_prompt transcript "medium".
Proof.
  intros Hs Hl. unfold summary_prompt, get_default, length_instructions.
  cbn [assoc].
  destruct (String.eqb_spec "short" length); [congruence|].
  destruct (String.eqb_spec "medium" length); [now subst|].
  destruct (String.eqb_spec "long" length); [congruence|].
  reflexivity.
Qed.

(* ================================================================= *)
(** ** The set-up check *)

Section SetupFacts.

Variable importable : string -> bool.
Variable load_dotenv : Setup.environ -> Setup.environ.

(** X22. The script ends with status 0 exactly when the three packages
    can be imported and [OPENAI_API_KEY] has a value that is not empty
    once the [.env] file is loaded; otherwise it ends with status 1. *)
Theorem main_succeeds_iff (env : Setup.environ) :
  (Setup.main importable load_dotenv env = 0 <->
   importable "flask" = true /\
   importable "openai" = true /\
   importable "youtube_transcript_api" = true /\
   exists key,
     Setup.getenv (load_dotenv env) "OPENAI_API_KEY" = Some key /\
     key <> "") /\
  (Setup.main importable load_dotenv env = 0 \/
   Setup.main importable load_dotenv env = 1).
Proof.
  unfold Setup.main, Setup.tests, Setup.run_tests, Setup.test_env_vars,
    Setup.test_imports, Setup.test_openai_client.
  cbv beta iota zeta. simpl List.length. simpl fst.
  destruct (importable "flask"), (importable "openai"),
    (importable "youtube_transcript_api");
    destruct (Setup.getenv (load_dotenv env) "OPENAI_API_KEY") as [[|a k]|];
    simpl;
    (split; [split; [try discriminate | ] | auto]);
    try (intros [? [? [? [key [E Hne]]]]]; try discriminate;
         injection E as <-; congruence).
  intros _. repeat split. exists (String a k). split; [reflexivity | discriminate].
Qed.

(** X23. An [OPENAI_API_KEY] set to the empty string passes the check
    of the client, which asks only that the key is not [None], and
    fails the check of the environment; the script ends with status 1. *)
Theorem empty_key_passes_client_check (env : Setup.environ) :
  importable "openai" = true ->
  Setup.getenv (load_dotenv env) "OPENAI_API_KEY" = Some "" ->
  fst (Setup.test_env_vars load_dotenv env) = false /\
  Setup.test_openai_client importable
    (snd (Setup.test_env_vars load_dotenv env)) = true /\
  Setup.main importable load_dotenv env = 1.
Proof.
  intros Hi Hk.
  unfold Setup.main, Setup.tests, Setup.run_tests, Setup.test_env_vars,
    Setup.test_imports, Setup.test_openai_client.
  cbv beta iota zeta. simpl List.length. simpl fst. simpl snd.
  rewrite Hi, Hk. simpl.
  destruct (importable "flask"), (importable "youtube_transcript_api");
    repeat split; reflexivity.
Qed.

End SetupFacts.

(* ================================================================= *)
(** ** Closed instances of the further properties *)

Lemma summary_is_trimmed_witness :
  exists summary ws1 ws2,
    fst (generate_summary_with_ai (chat_answers (Some "  A summary.  ")) None
           "Hello  world." "medium" []) = Return summary /\
    "  A summary.  " = ws1 ++ summary ++ ws2 /\
    PyStr.all_chars PyStr.isspace ws1 = true /\
    PyStr.all_chars PyStr.isspace ws2 = true /\
    PyStr.strip summary = summary.
Proof.
  apply (summary_is_trimmed (chat_answers (Some "  A summary.  ")) None
           "Hello  world." "medium" "  A summary.  " []);
    [reflexivity | discriminate].
Defined.

Lemma blank_answer_gives_empty_summary_witness :
  fst (generate_summary_with_ai (chat_answers (Some "   ")) None
         "Hello  world." "medium" []) = Return "".
Proof.
  apply (blank_answer_gives_empty_summary (chat_answers (Some "   ")) None
           "Hello  world." "medium" "   " []);
    [reflexivity | discriminate | reflexivity].
Defined.

Lemma generator_errors_carry_prefix_witness :
  fst (generate_quiz_with_ai
         (fun _ => Raise (mkExn (OtherError "RateLimitError") "slow down"))
         Json.loads None "A summary." [])
  = Raise (Exception "Failed to generate quiz: slow down") /\
  exists cause,
    "Failed to generate quiz: slow down" = "Failed to generate quiz: " ++ cause.
Proof.
  split; [reflexivity|].
  exact (proj2 (proj1 (proj2 (generator_errors_carry_prefix
                                (fun _ => Raise (mkExn (OtherError "RateLimitError")
                                                   "slow down"))
                                Json.loads None "A summary." "medium" []
                                (Exception "Failed to generate quiz: slow down")))
                  eq_refl)).
Defined.

Lemma no_content_is_an_error_witness :
  fst (generate_summary_with_ai (chat_answers None) None
         "Hello  world." "medium" [])
  = Raise (Exception "Failed to generate summary: No content received from AI").
Proof.
  exact (proj1 (no_content_is_an_error (chat_answers None) Json.loads None
                  "Hello  world." "medium" [] None (or_introl eq_refl))
           eq_refl).
Defined.

Lemma summarize_success_witness :
  summarize (english_video [ "Hello "; "world." ])
    (chat_answers (Some " A greeting. ")) None
    (mkSummarizeBody (Some "https://youtu.be/abc123")) []
  = ((JObject [ ("summary", JString "A greeting.");
                ("transcript", JString "Hello  world.");
                ("video_id", JString "abc123") ], 200),
     [ summary_request None "Hello  world." "medium" ]).
Proof.
  apply (summarize_success (english_video [ "Hello "; "world." ])
           (chat_answers (Some " A greeting. ")) None
           "https://youtu.be/abc123" "abc123" "Hello  world." " A greeting. " []);
    [reflexivity | reflexivity | reflexivity | discriminate].
Defined.

Lemma summarize_transcript_failure_witness :
  summarize disabled_video (chat_answers (Some " A greeting. ")) None
    (mkSummarizeBody (Some "https://youtu.be/abc123")) []
  = (error_response "No transcript available for this video." 500, []).
Proof.
  apply (summarize_transcript_failure disabled_video
           (chat_answers (Some " A greeting. ")) None
           "https://youtu.be/abc123" "abc123"
           (Exception "No transcript available for this video.") []);
    reflexivity.
Defined.

Lemma summarize_model_failure_witness :
  summarize (english_video [ "Hello "; "world." ])
    (fun _ => Raise (mkExn (OtherError "RateLimitError") "slow down")) None
    (mkSummarizeBody (Some "https://youtu.be/abc123")) []
  = (error_response "Failed to generate summary: slow down" 500,
     [ summary_request None "Hello  world." "medium" ]).
Proof.
  apply (summarize_model_failure (english_video [ "Hello "; "world." ])
           (fun _ => Raise (mkExn (OtherError "RateLimitError") "slow down"))
           None "https://youtu.be/abc123" "abc123" "Hello  world."
           (mkExn (OtherError "RateLimitError") "slow down") []);
    reflexivity.
Defined.

Lemma undecodable_answer_is_served_witness :
  generate_quiz (chat_answers (Some "Here you go: {not json} Enjoy!"))
    Json.loads None (mkSummaryBody (Some "A summary.")) []
  = ((JObject [ ("questions", fallback_questions) ], 200),
     [ quiz_request None "A summary." ]).
Proof.
  exact (proj1 (undecodable_answer_is_served
                  (chat_answers (Some "Here you go: {not json} Enjoy!"))
                  Json.loads None "A summary."
                  "Here you go: {not json} Enjoy!" Json.decode_error []
                  ltac:(discriminate) eq_refl eq_refl eq_refl eq_refl)
           eq_refl).
Defined.

Lemma prose_answer_is_an_error_witness :
  generate_matching_pairs (chat_answers (Some "The video is about cats."))
    Json.loads None (mkSummaryBody (Some "A summary.")) []
  = (error_response
       "Failed to generate matching pairs: No JSON found in response" 500,
     [ pairs_request None "A summary." ]).
Proof.
  exact (proj2 (prose_answer_is_an_error
                  (chat_answers (Some "The video is about cats."))
                  Json.loads None "A summary." "The video is about cats." []
                  ltac:(discriminate) ltac:(discriminate)
                  (or_introl eq_refl))
           eq_refl).
Defined.

Lemma payload_ignores_prose_witness :
  json_payload ("Sure: " ++ "{" ++ "not json" ++ "}" ++ " Bye.") = "{not json}".
Proof.
  apply (payload_ignores_prose "Sure: " "not json" " Bye."); reflexivity.
Defined.

Lemma reversed_braces_give_fallback_witness :
  json_payload "} and {" = "" /\
  parse_quiz Json.loads (Some "} and {") = Return fallback_questions /\
  parse_pairs Json.loads (Some "} and {") = Return fallback_pairs.
Proof.
  apply (reversed_braces_give_fallback Json.loads "} and {" Json.decode_error);
    reflexivity.
Defined.

Lemma unknown_length_means_medium_witness :
  summary_prompt "Hello  world." "tiny" = summary_prompt "Hello  world." "medium".
Proof.
  apply (unknown_length_means_medium "Hello  world." "tiny"); discriminate.
Defined.

Lemma pairs_are_returned_as_decoded_witness :
  parse_pairs Json.loads
    (Some ("{" ++ dquote ++ "pairs" ++ dquote ++ ": 5}"))
  = Return (JInt 5).
Proof.
  exact (pairs_are_returned_as_decoded Json.loads
           ("{" ++ dquote ++ "pairs" ++ dquote ++ ": 5}")
           [ ("pairs", JInt 5) ] eq_refl eq_refl eq_refl).
Defined.

Lemma main_succeeds_iff_witness :
  Setup.main (fun _ => true) (fun env => env)
    [ ("OPENAI_API_KEY", "sk-test") ] = 0.
Proof.
  apply (proj1 (main_succeeds_iff (fun _ => true) (fun env => env)
                  [ ("OPENAI_API_KEY", "sk-test") ])).
  repeat split. exists "sk-test". split; [reflexivity | discriminate].
Defined.

Lemma empty_key_passes_client_check_witness :
  Setup.test_openai_client (fun _ => true) [ ("OPENAI_API_KEY", "") ] = true /\
  Setup.main (fun _ => true) (fun env => env) [ ("OPENAI_API_KEY", "") ] = 1.
Proof.
  destruct (empty_key_passes_client_check (fun _ => true) (fun env => env)
              [ ("OPENAI_API_KEY", "") ] eq_refl eq_refl) as [_ [H1 H2]].
  split; [exact H1 | exact H2].
Defined.

(* ================================================================= *)
(** ** The handlers on any request body *)

Section SurfaceFacts.

Variable list_transcripts : string -> result TranscriptList.
Variable chat_completion : chat_request -> result (option string).
Variable json_loads : string -> result json.
Variable OPENAI_MODEL : option string.
Variable float_is_zero : string -> bool.
Variable search_type_error : json -> string.
Variable format_value : json -> string.

(** Only a dictionary has the field; anything else raises. *)
Lemma field_of_object (body : result json) (field : string) (v : json) :
  field_of body field = Return v <->
  exists d, body = Return (JObject d) /\ v = get_default d field JNull.
Proof.
  unfold field_of. split.
  - destruct body as [e|data]; simpl; [discriminate|].
    destruct data; simpl; try discriminate.
    intros H. injection H as <-. now exists fields.
  - intros [d [-> ->]]. reflexivity.
Qed.


(** X15. Whatever [request.get_json()] gives, the handlers of the quiz
    and of the pairs answer status 400 exactly when the body is an
    object whose field [summary] is missing or false in the sense of
    the language; the body of the answer is then "Summary is required"
    and no request is sent. *)
Theorem summary_json_is_required (body : result json) (log : llm_log) :
  (snd (fst (generate_quiz_json chat_completion json_loads OPENAI_MODEL
               float_is_zero format_value body log)) = 400
   <-> exists d,
         body = Return (JObject d) /\
         json_truthy float_is_zero (get_default d "summary" JNull) = false) /\
  (snd (fst (generate_matching_pairs_json chat_completion json_loads
               OPENAI_MODEL float_is_zero format_value body log)) = 400
   <-> exists d,
         body = Return (JObject d) /\
         json_truthy float_is_zero (get_default d "summary" JNull) = false) /\
  (forall d,
     body = Return (JObject d) ->
     json_truthy float_is_zero (get_default d "summary" JNull) = false ->
     generate_quiz_json chat_completion json_loads OPENAI_MODEL
       float_is_zero format_value body log
     = ((JObject [ ("error", JString "Summary is required") ], 400), log) /\
     generate_matching_pairs_json chat_completion json_loads OPENAI_MODEL
       float_is_zero format_value body log
     = ((JObject [ ("error", JString "Summary is required") ], 400), log)).
Proof.
  unfold generate_quiz_json, generate_matching_pairs_json.
  destruct (field_of body "summary") as [e|v] eqn:Ef.
  - assert (Hno : ~ exists d,
               body = Return (JObject d) /\
               json_truthy float_is_zero (get_default d "summary" JNull)
               = false).
    { intros [d [Hb _]].
      assert (H : field_of body "summary"
                  = Return (get_default d "summary" JNull))
        by (apply field_of_object; eauto).
      congruence. }
    simpl. split; [|split].
    + split; [discriminate | intros H; now apply Hno in H].
    + split; [discriminate | intros H; now apply Hno in H].
    + intros d Hb Ht. exfalso. apply Hno. eauto.
  - apply field_of_object in Ef. destruct Ef as [d [Hb Hv]].
    assert (Hinv : forall d',
               body = Return (JObject d') ->
               get_default d' "summary" JNull = v).
    { intros d' Hb'. rewrite Hb in Hb'. injection Hb' as <-. now symmetry. }
    destruct (json_truthy float_is_zero v) eqn:Tv; simpl negb; cbv iota.
    + assert (Hno : ~ exists d',
                 body = Return (JObject d') /\
                 json_truthy float_is_zero (get_default d' "summary" JNull)
                 = false).
      { intros [d' [Hb' Hf]]. rewrite (Hinv d' Hb') in Hf. congruence. }
      split; [|split].
      * destruct (generate_quiz_with_ai _ _ _ _ _) as [[e|q] log']; simpl;
          (split; [discriminate | intros H; now apply Hno in H]).
      * destruct (generate_matching_pairs_with_ai _ _ _ _ _)
          as [[e|q] log']; simpl;
          (split; [discriminate | intros H; now apply Hno in H]).
      * intros d' Hb' Hf. exfalso. apply Hno. eauto.
    + simpl. split; [|split].
      * split; [intros _ | reflexivity].
        exists d. split; [assumption | now rewrite <- Hv].
      * split; [intros _ | reflexivity].
        exists d. split; [assumption | now rewrite <- Hv].
      * intros d' Hb' Hf. split; reflexivity.
Qed.

End SurfaceFacts.


Lemma summary_json_is_required_witness :
  generate_quiz_json (chat_answers (Some "{}")) Json.loads None
    (fun _ => false) (fun _ => "True")
    (Return (JObject [ ("summary", JBool false) ])) []
  = ((JObject [ ("error", JString "Summary is required") ], 400), []) /\
  snd (fst (generate_quiz_json (chat_answers (Some "{}")) Json.loads None
              (fun _ => false) (fun _ => "True")
              (Return (JArray [])) []))
  = 500.
Proof.
  split; [|reflexivity].
  exact (proj1 (proj2 (proj2 (summary_json_is_required
                                (chat_answers (Some "{}")) Json.loads None
                                (fun _ => false) (fun _ => "True")
                                (Return (JObject [ ("summary", JBool false) ]))
                                []))
                  [ ("summary", JBool false) ] eq_refl eq_refl)).
Defined.
